(** * dingtalksd: the task-offload and reply-delivery pipeline of
      [StableDiffusionBot] ([dingtalksd.py])

    A shallow embedding of the bot's methods.  Python's effects are made
    explicit: every method is a computation over a process state (the bot
    object [self], the shared task queue, the state of the outside world
    and the chronological trace of what the process logged and sent), and
    ends by returning a value, by raising, or blocked inside a queue
    operation.  The collaborators that are not part of the program (the
    diffusers pipeline, the DingTalk client, the PNG encoder, the clock) are
    fields of an [Externals] record over which everything is stated. *)

From Stdlib Require Import List ZArith NArith QArith Qround Bool Lia.
From Stdlib Require Import RelationClasses.
From Stdlib Require Import Ascii String DecimalString.
From Stdlib.Strings Require Import Byte.
Import ListNotations.

Local Open Scope Z_scope.

(* ================================================================== *)
(** ** Python strings *)

Module Py.

(** A [str] is a sequence of Unicode code points. *)
Definition str := list N.

(** A literal written in the source (ASCII only). *)
Definition lit (s : string) : str :=
  List.map N_of_ascii (list_ascii_of_string s).

(** The line feed the source writes as a backslash followed by n. *)
Definition nl : str := [10%N].

(** [str.isspace] on one code point: the characters that [str.strip()]
    without argument removes. *)
Definition isspace (c : N) : bool :=
  ((9 <=? c) && (c <=? 13) || (28 <=? c) && (c <=? 32)
   || (c =? 133) || (c =? 160) || (c =? 5760)
   || (8192 <=? c) && (c <=? 8202)
   || (c =? 8232) || (c =? 8233) || (c =? 8239) || (c =? 8287)
   || (c =? 12288))%N.

Fixpoint lstrip (s : str) : str :=
  match s with
  | c :: s' => if isspace c then lstrip s' else s
  | [] => []
  end.

Definition rstrip (s : str) : str := rev (lstrip (rev s)).

(** [s.strip()] *)
Definition strip (s : str) : str := rstrip (lstrip s).

(** [a == b] *)
Fixpoint eqb (a b : str) : bool :=
  match a, b with
  | [], [] => true
  | x :: a', y :: b' => N.eqb x y && eqb a' b'
  | _, _ => false
  end.

(** Decimal digits of a natural number, as [str(n)] prints them. *)
Definition of_N (n : N) : str :=
  lit (NilZero.string_of_uint (N.to_uint n)).

(** [str(z)] for an [int]. *)
Definition of_Z (z : Z) : str :=
  if z <? 0 then lit "-" ++ of_N (Z.to_N (- z)) else of_N (Z.to_N z).

(** A Python [float], by its exact value.  The program subtracts two
    clock reads, and applies [round(x, 3)] and [str] to the difference.
    The subtraction is written exactly: that is the float the program
    computes whenever the difference of the two floats is itself a
    float, and a statement about the program assumes as much. *)
Definition float := Q.

(** [round(x, 3)], as the number of thousandths it denotes.  CPython
    rounds the exact value of [x] correctly, ties to even, and returns
    the double nearest to that decimal. *)
Definition round3 (x : float) : Z :=
  let n := Qnum x * 1000 in
  let d := Z.pos (Qden x) in
  let q := n / d in
  let r := n mod d in
  if 2 * r <? d then q
  else if d <? 2 * r then q + 1
  else if Z.even q then q else q + 1.

(** The digits after the point in [repr] of a float worth [f]
    thousandths ([0 <= f < 1000]): the shortest that read back as the same
    double, hence no trailing zero, and one digit at least. *)
Definition frac_digits (f : Z) : str :=
  if f mod 1000 =? 0 then lit "0"
  else if f mod 100 =? 0 then of_Z (f / 100)
  else if f mod 10 =? 0 then of_Z (f / 100) ++ of_Z (f / 10 mod 10)
  else of_Z (f / 100) ++ of_Z (f / 10 mod 10) ++ of_Z (f mod 10).

(** [str(round(x, 3))], given the thousandths [k] of the rounded value.
    A double that is the nearest one to a decimal of at most 15
    significant digits prints as that decimal, so for [|k| < 10^15] this
    is what [float.__repr__] returns (in positional notation).  A value
    that rounds to a negative zero has no counterpart here: Python prints
    it with a sign, so the function is that of the program for
    [0 <= x < 10^12] only. *)
Definition repr_thousandths (k : Z) : str :=
  let a := Z.abs k in
  (if k <? 0 then lit "-" else []) ++
  of_Z (a / 1000) ++ lit "." ++ frac_digits (a mod 1000).

End Py.

(* ================================================================== *)
(** ** Data *)

(** [PIL.Image]: a size and the pixel at each coordinate. *)
Definition RGB := (Z * Z * Z)%type.

Record Image := {
  width : Z;
  height : Z;
  getpixel : Z -> Z -> RGB
}.

Module PIL.

(** [Image.new('RGB', (w, h))]: filled with black. *)
Definition new (w h : Z) : Image :=
  {| width := w; height := h; getpixel := fun _ _ => (0, 0, 0) |}.

(** [dst.paste(src, (ox, oy))]: the box of [src]'s size at the offset
    takes [src]'s pixels; the size of [dst] does not change. *)
Definition paste (dst src : Image) (ox oy : Z) : Image :=
  {| width := width dst;
     height := height dst;
     getpixel := fun x y =>
       if (ox <=? x) && (x <? ox + width src)
          && (oy <=? y) && (y <? oy + height src)
       then getpixel src (x - ox) (y - oy)
       else getpixel dst x y |}.

End PIL.

Definition bytes := list Byte.byte.

Inductive Format := PNG.

(** [dingtalk_stream.ChatbotMessage], as far as the bot reads it:
    [incoming_message.text.content]; either attribute may be [None]. *)
Record TextContent := { content : option Py.str }.

Record ChatbotMessage := {
  conversation_id : Py.str;
  sender_id : Py.str;
  text : option TextContent
}.

(** The exceptions ([Exception] and below) that can reach the bot. *)
Inductive exn :=
| AttributeError
| IndexError
| TypeError
| Error (what : string).

(** A value that is [None] or a [str] (a media id, a response). *)
Inductive Value := VNone | VStr (s : Py.str).

(** ['%s' % v] *)
Definition str_of_value (v : Value) : Py.str :=
  match v with
  | VNone => Py.lit "None"
  | VStr s => s
  end.

(** The parsed command line ([define_options]). *)
Record Options := {
  client_id : Py.str;
  client_secret : Py.str;
  device : option Py.str;
  subprocess : option bool
}.

(** Truth value of [options.subprocess], which is [None], [True] or
    [False]. *)
Definition truthy (o : option bool) : bool :=
  match o with
  | Some true => true
  | _ => false
  end.

Inductive Dtype := float16.

(** A [StableDiffusionPipeline], by the way it was set up. *)
Record Pipe := {
  model : string;
  torch_dtype : option Dtype;
  pipe_device : option Py.str;
  attention_slicing : bool
}.

(** The keyword arguments of one call [pipe(prompt, ...)]. *)
Record PipeArgs := {
  prompt : Py.str;
  arg_height : Z;
  arg_width : Z;
  num_inference_steps : option Z;
  num_images_per_prompt : option Z
}.

(** [AckMessage.STATUS_*] *)
Inductive AckStatus :=
| STATUS_OK
| STATUS_BAD_REQUEST
| STATUS_NOT_IMPLEMENT
| STATUS_SYSTEM_EXCEPTION.

Definition Ack := (AckStatus * Py.str)%type.

(** The bot object. *)
Record Bot := {
  _is_darwin : bool;
  _is_google_colab : bool;
  _options : Options;
  _pipe : option Pipe;
  _enable_four_images : bool
}.

(** [multiprocessing.Queue(maxsize)], shared by the two processes: the
    items put and not yet taken, oldest first. *)
Record Queue := {
  maxsize : Z;
  items : list ChatbotMessage
}.

Definition full (q : Queue) : bool :=
  (0 <? maxsize q) && (maxsize q <=? Z.of_nat (List.length (items q))).

(** The dict built by [process_incoming_message]. *)
Record CompleteTask := {
  image : option bytes;
  incoming_message : ChatbotMessage;
  elapse_seconds : Py.float
}.

(** *** What a process does, in order *)

Inductive Level := INFO | ERROR.

Inductive Obj :=
| OMsg (m : ChatbotMessage)
| OExn (e : exn)
| OInt (z : Z)
| OValue (v : Value)
| OProcess.

Inductive Event :=
| Log (lvl : Level) (fmt : string) (args : list Obj)
| PipeCall (p : Pipe) (a : PipeArgs)
| Upload (image_content : option bytes)
| ReplyMarkdown (title body : Py.str) (m : ChatbotMessage).

(** How a computation ends. [Block]: inside a blocking queue operation
    that cannot proceed. *)
Inductive Res (A : Type) :=
| Ret (a : A)
| Raise (e : exn)
| Block.

Arguments Ret {A} a.
Arguments Raise {A} e.
Arguments Block {A}.

(** How a call to a collaborator ends: it returns or it raises. *)
Inductive Outcome (A : Type) :=
| Returns (a : A)
| Raises (e : exn).

Arguments Returns {A} a.
Arguments Raises {A} e.

Definition res_of {A} (o : Outcome A) : Res A :=
  match o with
  | Returns a => Ret a
  | Raises e => Raise e
  end.

(* ================================================================== *)
(** ** The collaborators

    [W] is the state of everything outside the program, [Data] the type of
    [callback.data]. *)

Record Externals (W Data : Type) := {
  (** [platform.system().lower() == 'darwin'] *)
  platform_is_darwin : bool;
  (** ['COLAB_RELEASE_TAG' in os.environ] *)
  in_google_colab : bool;
  (** [StableDiffusionPipeline.from_pretrained(...).to(device)], with
      [enable_attention_slicing()] where asked: loading a pipeline set up
      as given *)
  load_pipe : Pipe -> W -> Outcome unit * W;
  (** [pipe(prompt, ...).images] *)
  pipe_run : Pipe -> PipeArgs -> W -> Outcome (list Image) * W;
  (** [image.save(fp, format); fp.getvalue()] *)
  save : Image -> Format -> bytes;
  (** [time.time()] *)
  time_time : W -> Py.float * W;
  (** [dingtalk_stream.ChatbotMessage.from_dict] *)
  from_dict : Data -> Outcome ChatbotMessage;
  (** [self.dingtalk_client.upload_to_dingtalk] *)
  upload_to_dingtalk : option bytes -> W -> Outcome Value * W;
  (** [ChatbotHandler.reply_markdown] *)
  reply_markdown : Py.str -> Py.str -> ChatbotMessage -> W -> Outcome Value * W
}.

Arguments platform_is_darwin {W Data} _.
Arguments in_google_colab {W Data} _.
Arguments load_pipe {W Data} _ _ _.
Arguments pipe_run {W Data} _ _ _ _.
Arguments save {W Data} _ _ _.
Arguments time_time {W Data} _ _.
Arguments from_dict {W Data} _ _.
Arguments upload_to_dingtalk {W Data} _ _ _.
Arguments reply_markdown {W Data} _ _ _ _ _.

(* ================================================================== *)
(** ** Process state and computations *)

Record State (W : Type) := {
  self : Bot;
  task_queue : Queue;
  world : W;
  trace : list Event
}.

Arguments self {W} _.
Arguments task_queue {W} _.
Arguments world {W} _.
Arguments trace {W} _.

Definition M (W A : Type) : Type := State W -> Res A * State W.

Definition ret {W A} (a : A) : M W A := fun s => (Ret a, s).

Definition raise {W A} (e : exn) : M W A := fun s => (Raise e, s).

Definition bind {W A B} (c : M W A) (k : A -> M W B) : M W B :=
  fun s =>
    match c s with
    | (Ret a, s') => k a s'
    | (Raise e, s') => (Raise e, s')
    | (Block, s') => (Block, s')
    end.

(** [try: c  except Exception as e: h e] *)
Definition try_except {W A} (c : M W A) (h : exn -> M W A) : M W A :=
  fun s =>
    match c s with
    | (Raise e, s') => h e s'
    | r => r
    end.

Declare Scope py_scope.
Delimit Scope py_scope with py.

Notation "x <- c ;; k" := (bind c (fun x => k))
  (at level 61, c at next level, right associativity) : py_scope.
Notation "c ;; k" := (bind c (fun _ => k))
  (at level 61, right associativity) : py_scope.

Local Open Scope py_scope.

Definition emit {W} (e : Event) : M W unit :=
  fun s =>
    (Ret tt, {| self := self s; task_queue := task_queue s;
                world := world s; trace := trace s ++ [e] |}).

(** A call to a collaborator that reads and changes the outside world. *)
Definition extern {W A} (f : W -> Outcome A * W) : M W A :=
  fun s =>
    let (o, w) := f (world s) in
    (res_of o, {| self := self s; task_queue := task_queue s;
                  world := w; trace := trace s |}).

Definition get_self {W} : M W Bot := fun s => (Ret (self s), s).

Definition set_self {W} (b : Bot) : M W unit :=
  fun s =>
    (Ret tt, {| self := b; task_queue := task_queue s;
                world := world s; trace := trace s |}).

(** [self.logger.info(fmt, *args)], [self.logger.error(fmt, *args)] *)
Definition logger {W} (lvl : Level) (fmt : string) (args : list Obj)
  : M W unit :=
  emit (Log lvl fmt args).

(** [self._task_queue.put(m)], with the defaults [block=True, timeout=None]:
    waits for a free slot. *)
Definition put {W} (m : ChatbotMessage) : M W unit :=
  fun s =>
    if full (task_queue s) then (Block, s)
    else (Ret tt, {| self := self s;
                     task_queue := {| maxsize := maxsize (task_queue s);
                                      items := items (task_queue s) ++ [m] |};
                     world := world s; trace := trace s |}).

(** [self._task_queue.get()], with the defaults: waits for an item. *)
Definition get {W} : M W ChatbotMessage :=
  fun s =>
    match items (task_queue s) with
    | [] => (Block, s)
    | m :: rest =>
        (Ret m, {| self := self s;
                   task_queue := {| maxsize := maxsize (task_queue s);
                                    items := rest |};
                   world := world s; trace := trace s |})
    end.

(** [while True: body], unfolded [fuel] times. *)
Fixpoint while_true {W} (fuel : nat) (body : M W unit) : M W unit :=
  match fuel with
  | O => ret tt
  | S n => body ;; while_true n body
  end.

(* ================================================================== *)
(** ** [class StableDiffusionBot] *)

Section StableDiffusionBot.

Context {W Data : Type} (ext : Externals W Data).

(** The body of [create_pipe], given what it reads from [self]. *)
Definition create_pipe_for (darwin : bool) (options : Options) : M W Pipe :=
  let pipe := {| model := "runwayml/stable-diffusion-v1-5";
                 torch_dtype := if darwin then None else Some float16;
                 pipe_device := device options;
                 attention_slicing := darwin |} in
  extern (load_pipe ext pipe) ;;
  ret pipe.

Definition create_pipe : M W Pipe :=
  b <- get_self ;;
  create_pipe_for (_is_darwin b) (_options b).

(** [StableDiffusionBot(options, logger)], started in the world [w]. *)
Definition __init__ (options : Options) (w : W) : Res (State W) :=
  let blank := {| _is_darwin := platform_is_darwin ext;
                  _is_google_colab := in_google_colab ext;
                  _options := options;
                  _pipe := None;
                  _enable_four_images := true |} in
  let queue := {| maxsize := 128; items := [] |} in
  let s0 := {| self := blank; task_queue := queue; world := w; trace := [] |} in
  if negb (truthy (subprocess options)) then
    match create_pipe_for (platform_is_darwin ext) options s0 with
    | (Ret p, s) =>
        Ret {| self := {| _is_darwin := platform_is_darwin ext;
                          _is_google_colab := in_google_colab ext;
                          _options := options;
                          _pipe := Some p;
                          _enable_four_images := true |};
               task_queue := queue; world := world s; trace := trace s |}
    | (Raise e, _) => Raise e
    | (Block, _) => Block
    end
  else Ret s0.

(** [time.time()] *)
Definition now : M W Py.float :=
  extern (fun w => let (t, w') := time_time ext w in (Returns t, w')).

(** [incoming_message.text.content.strip()] *)
Definition stripped_text (m : ChatbotMessage) : M W Py.str :=
  match text m with
  | None => raise AttributeError
  | Some t =>
      match content t with
      | None => raise AttributeError
      | Some s => ret (Py.strip s)
      end
  end.

(** [pipe(prompt, ...).images]; [pipe] is [None] where no pipeline was
    created. *)
Definition call_pipe (pipe : option Pipe) (a : PipeArgs) : M W (list Image) :=
  match pipe with
  | None => raise TypeError
  | Some p => emit (PipeCall p a) ;; extern (pipe_run ext p a)
  end.

(** [images[i]] *)
Definition index (images : list Image) (i : nat) : M W Image :=
  match nth_error images i with
  | Some im => ret im
  | None => raise IndexError
  end.

Definition txt2img_one (pipe : option Pipe) (m : ChatbotMessage)
  : M W (option bytes) :=
  prompt <- stripped_text m ;;
  call_pipe pipe {| prompt := prompt; arg_height := 512; arg_width := 512;
                    num_inference_steps := Some 1;
                    num_images_per_prompt := None |} ;;
  images <- call_pipe pipe {| prompt := prompt; arg_height := 512;
                              arg_width := 512;
                              num_inference_steps := None;
                              num_images_per_prompt := None |} ;;
  image <- index images 0 ;;
  ret (Some (save ext image PNG)).

(** The canvas of [txt2img_four] after its four pastes. *)
Definition img_merge (i0 i1 i2 i3 : Image) : Image :=
  let c := PIL.new 1024 1024 in
  let c := PIL.paste c i0 0 0 in
  let c := PIL.paste c i1 512 0 in
  let c := PIL.paste c i2 0 512 in
  PIL.paste c i3 512 512.

Definition txt2img_four (pipe : option Pipe) (m : ChatbotMessage)
  : M W (option bytes) :=
  prompt <- stripped_text m ;;
  call_pipe pipe {| prompt := prompt; arg_height := 512; arg_width := 512;
                    num_inference_steps := Some 1;
                    num_images_per_prompt := None |} ;;
  images <- call_pipe pipe {| prompt := prompt; arg_height := 512;
                              arg_width := 512;
                              num_inference_steps := None;
                              num_images_per_prompt := Some 4 |} ;;
  if (List.length images <? 4)%nat then
    logger ERROR "txt2img_four failed, not enough images, images.size=%d"
           [OInt (Z.of_nat (List.length images))] ;;
    ret None
  else
    i0 <- index images 0 ;;
    i1 <- index images 1 ;;
    i2 <- index images 2 ;;
    i3 <- index images 3 ;;
    ret (Some (save ext (img_merge i0 i1 i2 i3) PNG)).

Definition txt2img (pipe : option Pipe) (m : ChatbotMessage)
  : M W (option bytes) :=
  b <- get_self ;;
  if _enable_four_images b then txt2img_four pipe m
  else txt2img_one pipe m.

(** The markdown body composed by [reply_image]. *)
Definition reply_content (prompt media_id cost : Py.str) : Py.str :=
  Py.lit "#### Prompts: " ++ prompt ++ Py.nl ++ Py.nl ++
  Py.lit "![image](" ++ media_id ++ Py.lit ")" ++ Py.nl ++ Py.nl ++
  Py.lit "> cost " ++ cost ++ Py.lit "s" ++ Py.nl ++
  Py.lit "> " ++ Py.nl ++
  Py.lit "> Powered by Stable Diffusion" ++ Py.nl ++
  Py.lit "> " ++ Py.nl ++
  Py.lit "> via https://github.com/chzealot/dingtalk-stable-diffusion" ++
  Py.nl.

Definition reply_image (image_content : option bytes)
           (elapse_seconds : Py.float) (m : ChatbotMessage) : M W Value :=
  emit (Upload image_content) ;;
  media_id <- extern (upload_to_dingtalk ext image_content) ;;
  logger INFO "media_id=%s" [OValue media_id] ;;
  let title := Py.lit "Stable Diffusion txt2img" in
  prompt <- stripped_text m ;;
  let content := reply_content prompt (str_of_value media_id)
                   (Py.repr_thousandths (Py.round3 elapse_seconds)) in
  emit (ReplyMarkdown title content m) ;;
  extern (reply_markdown ext title content m).

(** [complete_task] is [None] or a dict; the dict built by the caller has
    three keys, so is true. *)
Definition process_complete (complete_task : option CompleteTask) : M W unit :=
  match complete_task with
  | None => ret tt
  | Some t =>
      response <- reply_image (image t) (elapse_seconds t)
                              (incoming_message t) ;;
      logger INFO "reply image, response=%s" [OValue response]
  end.

Definition process_incoming_message (m : ChatbotMessage) : M W unit :=
  logger INFO "get task, incoming_message=%s" [OMsg m] ;;
  b <- get_self ;;
  r <- try_except
         (begin_time <- now ;;
          image_content <- txt2img (_pipe b) m ;;
          end_time <- now ;;
          ret (Some (image_content, (end_time - begin_time)%Q)))
         (fun e =>
            logger ERROR "do sd process failed, error=%s" [OExn e] ;;
            ret None) ;;
  match r with
  | None => ret tt
  | Some (image_content, elapse) =>
      process_complete (Some {| image := image_content;
                                incoming_message := m;
                                elapse_seconds := elapse |})
  end.

(** [async def process(self, callback)], on [callback.data]. *)
Definition process (data : Data) : M W Ack :=
  m <- (fun s => (res_of (from_dict ext data), s)) ;;
  logger INFO "received incoming message, message=%s" [OMsg m] ;;
  b <- get_self ;;
  (if truthy (subprocess (_options b)) then put m
   else process_incoming_message m) ;;
  ret (STATUS_OK, Py.lit "OK").

(** [do_sd_process] up to its loop. *)
Definition do_sd_process_setup : M W unit :=
  logger INFO "do sd process ..." [] ;;
  p <- create_pipe ;;
  b <- get_self ;;
  set_self {| _is_darwin := _is_darwin b;
              _is_google_colab := _is_google_colab b;
              _options := _options b;
              _pipe := Some p;
              _enable_four_images := _enable_four_images b |}.

(** One turn of the loop of [do_sd_process]. *)
Definition worker_iteration : M W unit :=
  m <- get ;;
  process_incoming_message m.

Definition do_sd_process (fuel : nat) : M W unit :=
  do_sd_process_setup ;;
  while_true fuel worker_iteration.

End StableDiffusionBot.

(* ================================================================== *)
(** ** The two processes

    The ingestion process owns the bot that the stream client calls back;
    [pre_start] forks the worker, which runs [do_sd_process] on its own copy
    of the bot.  The queue is the one object both use.  [process] has no
    [await], so the ingestion process handles one callback at a time, and
    while it waits inside [put] it handles none.  Every call of [pre_start]
    forks: [worker] is the first child, [others] are the children of the
    later calls, in order. *)

Inductive Ingest :=
| Idle
| InPut (m : ChatbotMessage).

Inductive Worker :=
| NotStarted
| Running (b : Bot)
| Exited (e : exn).

Record Sys (W : Type) := {
  parent : Bot;
  ingest : Ingest;
  worker : Worker;
  queue : Queue;
  outside : W;
  history : list Event;
  acked : list Ack;
  others : list Worker
}.

Arguments parent {W} _.
Arguments ingest {W} _.
Arguments worker {W} _.
Arguments queue {W} _.
Arguments outside {W} _.
Arguments history {W} _.
Arguments acked {W} _.
Arguments others {W} _.

Inductive Action (Data : Type) :=
| Callback (data : Data)
| PutResumes
| PreStart
| WorkerTurn
| OtherTurn (i : nat).

Arguments Callback {Data} data.
Arguments PutResumes {Data}.
Arguments PreStart {Data}.
Arguments WorkerTurn {Data}.
Arguments OtherTurn {Data} i.

(** [l] with its element of index [i], if any, replaced by [a]. *)
Fixpoint replace {A} (i : nat) (a : A) (l : list A) : list A :=
  match l, i with
  | [], _ => []
  | _ :: l', O => a :: l'
  | x :: l', S i' => x :: replace i' a l'
  end.

Section Processes.

Context {W Data : Type} (ext : Externals W Data).

(** The state a process computes on, with [b] as its [self]. *)
Definition view (b : Bot) (y : Sys W) : State W :=
  {| self := b; task_queue := queue y;
     world := outside y; trace := history y |}.

(** [StableDiffusionBot(options, logger=logger)] in [main]. *)
Definition boot (options : Options) (w : W) : Res (Sys W) :=
  match __init__ ext options w with
  | Ret s =>
      Ret {| parent := self s; ingest := Idle; worker := NotStarted;
             queue := task_queue s; outside := world s;
             history := trace s; acked := []; others := [] |}
  | Raise e => Raise e
  | Block => Block
  end.

(** What is left of [process] once its [put] can go on. *)
Definition process_resume (m : ChatbotMessage) : M W Ack :=
  put m ;;
  ret (STATUS_OK, Py.lit "OK").

Definition on_callback (data : Data) (y : Sys W) : Sys W :=
  match ingest y with
  | InPut _ => y
  | Idle =>
      let (r, s) := process ext data (view (parent y) y) in
      {| parent := self s;
         ingest := match r, from_dict ext data with
                   | Block, Returns m => InPut m
                   | _, _ => Idle
                   end;
         worker := worker y;
         queue := task_queue s; outside := world s; history := trace s;
         acked := match r with
                  | Ret a => acked y ++ [a]
                  | _ => acked y
                  end;
         others := others y |}
  end.

Definition on_put_resumes (y : Sys W) : Sys W :=
  match ingest y with
  | Idle => y
  | InPut m =>
      match process_resume m (view (parent y) y) with
      | (Ret a, s) =>
          {| parent := self s; ingest := Idle; worker := worker y;
             queue := task_queue s; outside := world s;
             history := trace s; acked := acked y ++ [a];
             others := others y |}
      | _ => y
      end
  end.

(** [pre_start]: [start_sd_process] when [options.subprocess]; the child
    starts [do_sd_process] on a copy of the bot.  A call that finds a
    child already forked forks one more. *)
Definition on_pre_start (y : Sys W) : Sys W :=
  match worker y with
  | NotStarted =>
      if truthy (subprocess (_options (parent y))) then
        let (r, s) :=
          (logger INFO "worker started, process=%s" [OProcess] ;;
           do_sd_process_setup ext) (view (parent y) y) in
        {| parent := parent y; ingest := ingest y;
           worker := match r with
                     | Raise e => Exited e
                     | _ => Running (self s)
                     end;
           queue := task_queue s; outside := world s;
           history := trace s; acked := acked y; others := others y |}
      else y
  | _ =>
      if truthy (subprocess (_options (parent y))) then
        let (r, s) :=
          (logger INFO "worker started, process=%s" [OProcess] ;;
           do_sd_process_setup ext) (view (parent y) y) in
        {| parent := parent y; ingest := ingest y; worker := worker y;
           queue := task_queue s; outside := world s;
           history := trace s; acked := acked y;
           others := others y ++ [match r with
                                  | Raise e => Exited e
                                  | _ => Running (self s)
                                  end] |}
      else y
  end.

(** One turn of the worker's loop; an exception that leaves the loop
    ends the worker process. *)
Definition on_worker_turn (y : Sys W) : Sys W :=
  match worker y with
  | Running b =>
      let (r, s) := worker_iteration ext (view b y) in
      {| parent := parent y; ingest := ingest y;
         worker := match r with
                   | Raise e => Exited e
                   | _ => Running (self s)
                   end;
         queue := task_queue s; outside := world s;
         history := trace s; acked := acked y; others := others y |}
  | _ => y
  end.

(** One turn of the loop of the child of index [i] among the later
    ones. *)
Definition on_other_turn (i : nat) (y : Sys W) : Sys W :=
  match nth_error (others y) i with
  | Some (Running b) =>
      let (r, s) := worker_iteration ext (view b y) in
      {| parent := parent y; ingest := ingest y; worker := worker y;
         queue := task_queue s; outside := world s;
         history := trace s; acked := acked y;
         others := replace i (match r with
                              | Raise e => Exited e
                              | _ => Running (self s)
                              end) (others y) |}
  | _ => y
  end.

Definition sys_step (a : Action Data) (y : Sys W) : Sys W :=
  match a with
  | Callback data => on_callback data y
  | PutResumes => on_put_resumes y
  | PreStart => on_pre_start y
  | WorkerTurn => on_worker_turn y
  | OtherTurn i => on_other_turn i y
  end.

(** The system after a schedule of actions, first action first. *)
Definition run (l : list (Action Data)) (y : Sys W) : Sys W :=
  fold_left (fun y a => sys_step a y) l y.

End Processes.

(* ================================================================== *)
(** ** Concrete collaborators, for running the bot *)

Module Demo.

(** A 512 x 512 tile of one colour, with a white pixel in its corner. *)
Definition tile (c : RGB) : Image :=
  {| width := 512; height := 512;
     getpixel := fun x y =>
       if (x =? 0) && (y =? 0) then (255, 255, 255) else c |}.

Definition tiles : list Image :=
  [tile (255, 0, 0); tile (0, 255, 0); tile (0, 0, 255); tile (9, 9, 9)].

Definition message (s : string) : ChatbotMessage :=
  {| conversation_id := Py.lit "cid42";
     sender_id := Py.lit "alice";
     text := Some {| content := Some (Py.lit s) |} |}.

(** The outside world is the number of clock reads so far; each read is
    a second and a half after the one before. *)
Definition clock (w : nat) : Py.float * nat :=
  ((3 * Z.of_nat w) # 2, S w).

(** An engine that returns the first [n] tiles, and fails on the prompt
    [boom]. *)
Definition engine (n : nat) (_ : Pipe) (a : PipeArgs) (w : nat)
  : Outcome (list Image) * nat :=
  if Py.eqb (prompt a) (Py.lit "boom")
  then (Raises (Error "CUDA out of memory"), w)
  else (Returns (firstn n tiles), w).

Definition encoder (_ : Image) (_ : Format) : bytes :=
  [x89; x50; x4e; x47].

(** [callback.data]: data that [from_dict] cannot read, a message
    without text, or a text message. *)
Inductive data :=
| Unreadable
| NoText
| Text (s : string).

Definition parse (d : data) : Outcome ChatbotMessage :=
  match d with
  | Unreadable => Raises AttributeError
  | NoText =>
      Returns {| conversation_id := Py.lit "cid42";
                 sender_id := Py.lit "alice";
                 text := None |}
  | Text s => Returns (message s)
  end.

(** [n]: how many images the engine returns; [up]: how an upload ends. *)
Definition env (n : nat) (up : Outcome Value)
  : Externals nat data :=
  {| platform_is_darwin := true;
     in_google_colab := false;
     load_pipe := fun _ w => (Returns tt, w);
     pipe_run := engine n;
     save := encoder;
     time_time := clock;
     from_dict := parse;
     upload_to_dingtalk := fun _ w => (up, w);
     reply_markdown := fun _ _ _ w => (Returns VNone, w) |}.

Definition uploaded : Outcome Value := Returns (VStr (Py.lit "@media123")).

Definition upload_fails : Outcome Value := Raises (Error "upload failed").

Definition options (sub : option bool) : Options :=
  {| client_id := Py.lit "key"; client_secret := Py.lit "secret";
     device := Some (Py.lit "mps"); subprocess := sub |}.

Definition pipe : Pipe :=
  {| model := "runwayml/stable-diffusion-v1-5"; torch_dtype := None;
     pipe_device := Some (Py.lit "mps"); attention_slicing := true |}.

(** The bot in inline mode ([--subprocess] not given, and [False] on
    this platform by lack of a default), with its pipeline. *)
Definition inline_bot : Bot :=
  {| _is_darwin := true; _is_google_colab := false;
     _options := options None; _pipe := Some pipe;
     _enable_four_images := true |}.

(** The bot in offload mode, as the ingestion process holds it. *)
Definition offload_bot : Bot :=
  {| _is_darwin := true; _is_google_colab := false;
     _options := options (Some true); _pipe := None;
     _enable_four_images := true |}.

(** The worker's copy of the bot, once it has loaded its pipeline. *)
Definition worker_bot : Bot :=
  {| _is_darwin := true; _is_google_colab := false;
     _options := options (Some true); _pipe := Some pipe;
     _enable_four_images := true |}.

(** The two processes in offload mode, before [pre_start]. *)
Definition booted : Sys nat :=
  {| parent := offload_bot; ingest := Idle; worker := NotStarted;
     queue := {| maxsize := 128; items := [] |};
     outside := 0%nat; history := []; acked := []; others := [] |}.

Definition fresh (b : Bot) : State nat :=
  {| self := b; task_queue := {| maxsize := 128; items := [] |};
     world := 0%nat; trace := [] |}.

(** A process that finds the requests [l] in the queue. *)
Definition queued (b : Bot) (l : list ChatbotMessage) : State nat :=
  {| self := b; task_queue := {| maxsize := 128; items := l |};
     world := 0%nat; trace := [] |}.

End Demo.

(* ================================================================== *)
(** ** Vocabulary of the properties *)

(** An event that reaches the requester's side: an upload or a reply. *)
Definition sends (e : Event) : bool :=
  match e with
  | Upload _ | ReplyMarkdown _ _ _ => true
  | _ => false
  end.

Definition silent (evs : list Event) : bool :=
  forallb (fun e => negb (sends e)) evs.

(** A computation all of whose runs relate the state before to the state
    after by [R]. *)
Definition respects {W A} (R : State W -> State W -> Prop) (c : M W A) : Prop :=
  forall s, R s (snd (c s)).

(** A computation that never waits on the queue. *)
Definition total {W A} (c : M W A) : Prop :=
  forall s, fst (c s) <> Block.

(** The bot keeps its mode flag and its options. *)
Definition frozen {W} (s s' : State W) : Prop :=
  _enable_four_images (self s') = _enable_four_images (self s) /\
  _options (self s') = _options (self s).

(** The bot object is not assigned to. *)
Definition same_self {W} (s s' : State W) : Prop := self s' = self s.

(** The queue keeps its capacity and stays within it. *)
Definition within (q : Queue) : Prop :=
  maxsize q = 128 /\ (List.length (items q) <= 128)%nat.

Definition bounded {W} (s s' : State W) : Prop :=
  within (task_queue s) -> within (task_queue s').

(** The trace only grows, and by nothing that [sends]. *)
Definition quiet {W} (s s' : State W) : Prop :=
  exists evs, trace s' = trace s ++ evs /\ silent evs = true.

(** The trace only grows. *)
Definition grows {W} (s s' : State W) : Prop :=
  exists evs, trace s' = trace s ++ evs.

(** The queue is left as it is. *)
Definition same_queue {W} (s s' : State W) : Prop :=
  task_queue s' = task_queue s.

(** The characters of [s] after its first point: the decimal digits of
    a printed float. *)
Fixpoint decimals (s : Py.str) : Py.str :=
  match s with
  | [] => []
  | c :: s' => if N.eqb c 46 then s' else decimals s'
  end.

Definition isdigit (c : N) : bool := ((48 <=? c) && (c <=? 57))%N.

(** The generation step of the task [m] taken in state [s] raises [e]:
    the task is logged, the clock read, and [txt2img] then raises, leaving
    the state [s2]. *)
Definition generation_raises {W Data} (ext : Externals W Data)
           (m : ChatbotMessage) (s : State W) (e : exn) (s2 : State W) : Prop :=
  exists t0 s1,
    (logger INFO "get task, incoming_message=%s" [OMsg m] ;; now ext) s
      = (Ret t0, s1) /\
    txt2img ext (_pipe (self s)) m s1 = (Raise e, s2).

(** The collaborators that deliver a reply always return. *)
Definition delivery_returns {W Data} (ext : Externals W Data) : Prop :=
  (forall img w, exists v, fst (upload_to_dingtalk ext img w) = Returns v) /\
  (forall title body m w,
      exists v, fst (reply_markdown ext title body m w) = Returns v).

(** What is known of every state the two processes reach. *)
Record Inv {W} (options : Options) (y : Sys W) : Prop := {
  inv_options : _options (parent y) = options;
  inv_parent : _enable_four_images (parent y) = true;
  inv_worker : forall b, worker y = Running b -> _enable_four_images b = true;
  inv_queue : within (queue y)
}.

(* ================================================================== *)
(** ** The rest of the program *)

(** [define_options], from the namespace [parsed] that
    [parser.parse_args()] returned: the defaults by platform, assigned in
    the order of the source. *)
Definition define_options {W Data} (ext : Externals W Data)
           (parsed : Options) : Options :=
  let is_darwin := platform_is_darwin ext in
  let is_google_colab := in_google_colab ext in
  let device0 := device parsed in
  let device1 :=
    match device0 with
    | None =>
        let d := if is_darwin then Some (Py.lit "mps") else device0 in
        if is_google_colab then Some (Py.lit "cuda") else d
    | Some _ => device0
    end in
  let subprocess0 := subprocess parsed in
  let subprocess1 :=
    match subprocess0 with
    | None =>
        let b := if is_darwin then Some true else subprocess0 in
        if is_google_colab then Some false else b
    | Some _ => subprocess0
    end in
  {| client_id := client_id parsed;
     client_secret := client_secret parsed;
     device := device1;
     subprocess := subprocess1 |}.

(** The pipeline that [create_pipe] sets up for a bot with these options
    on this platform. *)
Definition pipe_for {W Data} (ext : Externals W Data) (options : Options)
  : Pipe :=
  {| model := "runwayml/stable-diffusion-v1-5";
     torch_dtype := if platform_is_darwin ext then None else Some float16;
     pipe_device := device options;
     attention_slicing := platform_is_darwin ext |}.

(** The [try] block of [process_incoming_message]. *)
Definition try_block {W Data} (ext : Externals W Data) (pipe : option Pipe)
           (m : ChatbotMessage) : M W (option (option bytes * Py.float)) :=
  begin_time <- now ext ;;
  image_content <- txt2img ext pipe m ;;
  end_time <- now ext ;;
  ret (Some (image_content, (end_time - begin_time)%Q)).

(** The two calls of the engine for a prompt: the warm-up, then the call
    for [n] images ([None]: one image). *)
Definition warm_up (prompt : Py.str) : PipeArgs :=
  {| prompt := prompt; arg_height := 512; arg_width := 512;
     num_inference_steps := Some 1; num_images_per_prompt := None |}.

Definition real_call (prompt : Py.str) (n : option Z) : PipeArgs :=
  {| prompt := prompt; arg_height := 512; arg_width := 512;
     num_inference_steps := None; num_images_per_prompt := n |}.

(** *** Reading the trace *)

(** The message of a record that [process] logs on receipt. *)
Definition received_msg (e : Event) : option ChatbotMessage :=
  match e with
  | Log INFO fmt [OMsg m] =>
      if String.eqb fmt "received incoming message, message=%s"
      then Some m else None
  | _ => None
  end.

(** The message of a record that [process_incoming_message] logs when it
    takes a task. *)
Definition task_msg (e : Event) : option ChatbotMessage :=
  match e with
  | Log INFO fmt [OMsg m] =>
      if String.eqb fmt "get task, incoming_message=%s"
      then Some m else None
  | _ => None
  end.

Definition pick {A B} (f : A -> option B) (l : list A) : list B :=
  flat_map (fun a => match f a with Some b => [b] | None => [] end) l.

(** The messages received, and the messages taken as tasks, in order. *)
Definition received (tr : list Event) : list ChatbotMessage :=
  pick received_msg tr.

Definition taken (tr : list Event) : list ChatbotMessage :=
  pick task_msg tr.

(** An event that is neither of the two. *)
Definition plain (e : Event) : bool :=
  match received_msg e, task_msg e with
  | None, None => true
  | _, _ => false
  end.

(** The trace grows by plain events only. *)
Definition plainly {W} (s s' : State W) : Prop :=
  exists evs, trace s' = trace s ++ evs /\ forallb plain evs = true.

(** The message a blocked [put] holds. *)
Definition pending (i : Ingest) : list ChatbotMessage :=
  match i with
  | Idle => []
  | InPut m => [m]
  end.

Definition is_upload (e : Event) : bool :=
  match e with
  | Upload _ => true
  | _ => false
  end.

Definition is_reply (e : Event) : bool :=
  match e with
  | ReplyMarkdown _ _ _ => true
  | _ => false
  end.

Definition is_pipe_call (e : Event) : bool :=
  match e with
  | PipeCall _ _ => true
  | _ => false
  end.

Definition count (f : Event -> bool) (evs : list Event) : nat :=
  List.length (filter f evs).

(** A command line with the two credentials only. *)
Definition bare_command_line : Options :=
  {| client_id := Py.lit "key"; client_secret := Py.lit "secret";
     device := None; subprocess := None |}.

(** The collaborators of [Demo], on Google Colab. *)
Definition colab_env : Externals nat Demo.data :=
  {| platform_is_darwin := false;
     in_google_colab := true;
     load_pipe := fun _ w => (Returns tt, w);
     pipe_run := Demo.engine 4;
     save := Demo.encoder;
     time_time := Demo.clock;
     from_dict := Demo.parse;
     upload_to_dingtalk := fun _ w => (Demo.uploaded, w);
     reply_markdown := fun _ _ _ w => (Returns VNone, w) |}.

(** The queue keeps what it holds, in front. *)
Definition extends {W} (s s' : State W) : Prop :=
  exists more, items (task_queue s') = items (task_queue s) ++ more.

(** The rationals that are binary64 floats. *)
Definition is_double (x : Q) : Prop :=
  exists m e : Z,
    Z.abs m < 2 ^ 53 /\ -1074 <= e <= 971 /\ (x == inject_Z m * 2 ^ e)%Q.

(** An error record. *)
Definition is_error (e : Event) : bool :=
  match e with
  | Log ERROR _ _ => true
  | _ => false
  end.

(** A record one of whose arguments is a message, whose text is the
    prompt. *)
Definition carries_message (e : Event) : bool :=
  match e with
  | Log _ _ args =>
      existsb (fun a => match a with OMsg _ => true | _ => false end) args
  | _ => false
  end.

(** The pixel [(x, y)] of a canvas lies in the box that the image [i]
    pasted at [(ox, oy)] takes. *)
Definition inside (i : Image) (ox oy x y : Z) : Prop :=
  ox <= x < ox + width i /\ oy <= y < oy + height i.

(** What is known of every state reached from a bot with [options]: where
    the pipelines are, and that inline mode uses neither worker nor
    queue. *)
Record Placed {W Data} (ext : Externals W Data) (options : Options)
       (y : Sys W) : Prop := {
  placed_darwin : _is_darwin (parent y) = platform_is_darwin ext;
  placed_options : _options (parent y) = options;
  placed_parent :
    _pipe (parent y) = if truthy (subprocess options) then None
                       else Some (pipe_for ext options);
  placed_worker :
    forall b, worker y = Running b -> _pipe b = Some (pipe_for ext options);
  placed_inline :
    truthy (subprocess options) = false ->
    worker y = NotStarted /\ items (queue y) = [] /\ ingest y = Idle;
  placed_others :
    truthy (subprocess options) = false -> others y = []
}.

(** Every message received was taken as a task, is in the queue, or is
    held by a blocked [put], in the order of receipt. *)
Definition conserved {W} (y : Sys W) : Prop :=
  received (history y)
  = taken (history y) ++ items (queue y) ++ pending (ingest y).

(* ================================================================== *)
(** * Properties *)

(** ** Python strings *)

Example strip_blue_sky :
  Py.strip (Py.lit "  a blue sky  ") = Py.lit "a blue sky".
Proof. reflexivity. Qed.

Example repr_12_34 :
  Py.repr_thousandths (Py.round3 (1234 # 100)) = Py.lit "12.34".
Proof. reflexivity. Qed.

Example repr_tie : Py.repr_thousandths (Py.round3 (1 # 16)) = Py.lit "0.062".
Proof. reflexivity. Qed.

Lemma lstrip_split (s : Py.str) :
  exists lead,
    s = lead ++ Py.lstrip s /\ forallb Py.isspace lead = true.
Proof.
  induction s as [|c s IH]; simpl.
  - exists []. split; reflexivity.
  - destruct (Py.isspace c) eqn:Hc.
    + destruct IH as [lead [Hs Hl]].
      exists (c :: lead). simpl. rewrite Hc, Hl. split; [|reflexivity].
      congruence.
    + exists []. split; reflexivity.
Qed.

Lemma lstrip_head (s : Py.str) (c : N) :
  hd_error (Py.lstrip s) = Some c -> Py.isspace c = false.
Proof.
  induction s as [|a s IH]; simpl; [discriminate|].
  destruct (Py.isspace a) eqn:Ha; [exact IH|].
  simpl. intros H. injection H as <-. exact Ha.
Qed.

Lemma rstrip_split (s : Py.str) :
  exists trail,
    s = Py.rstrip s ++ trail /\ forallb Py.isspace trail = true.
Proof.
  unfold Py.rstrip.
  destruct (lstrip_split (rev s)) as [lead [Hs Hl]].
  exists (rev lead). split.
  - rewrite <- rev_app_distr, <- Hs, rev_involutive. reflexivity.
  - rewrite forallb_forall in *. intros x Hx. apply Hl.
    apply in_rev. exact Hx.
Qed.

Lemma rstrip_last (s : Py.str) (c : N) :
  hd_error (rev (Py.rstrip s)) = Some c -> Py.isspace c = false.
Proof.
  unfold Py.rstrip. rewrite rev_involutive. apply lstrip_head.
Qed.

Lemma rstrip_head (s : Py.str) (c : N) :
  hd_error s = Some c -> Py.isspace c = false ->
  hd_error (Py.rstrip s) = Some c.
Proof.
  intros Hh Hc.
  destruct (rstrip_split s) as [trail [Hs Ht]].
  destruct (Py.rstrip s) as [|a r] eqn:Hr.
  - simpl in Hs. subst trail. destruct s as [|x s]; [discriminate|].
    simpl in Hh, Ht. injection Hh as ->. rewrite Hc in Ht. discriminate.
  - rewrite Hs in Hh. simpl in Hh. exact Hh.
Qed.

(** [strip] removes white space, and only white space, from both ends. *)
Lemma strip_spec (s : Py.str) :
  (exists lead trail,
      s = lead ++ Py.strip s ++ trail /\
      forallb Py.isspace lead = true /\ forallb Py.isspace trail = true) /\
  (forall c, hd_error (Py.strip s) = Some c -> Py.isspace c = false) /\
  (forall c, hd_error (rev (Py.strip s)) = Some c -> Py.isspace c = false).
Proof.
  unfold Py.strip. split; [|split].
  - destruct (lstrip_split s) as [lead [Hs Hl]].
    destruct (rstrip_split (Py.lstrip s)) as [trail [Hs' Ht]].
    exists lead, trail. rewrite <- Hs'. auto.
  - intros c Hc.
    destruct (Py.lstrip s) as [|a t] eqn:Ht; [discriminate Hc|].
    assert (Ha : Py.isspace a = false)
      by (apply (lstrip_head s); rewrite Ht; reflexivity).
    rewrite (rstrip_head (a :: t) a eq_refl Ha) in Hc.
    injection Hc as <-. exact Ha.
  - intros c. apply rstrip_last.
Qed.

(** ** Reasoning about computations *)

Section Respects.

Context {W : Type} (R : State W -> State W -> Prop) `{!PreOrder R}.

Lemma respects_ret {A} (a : A) : respects R (ret a).
Proof. intros s. reflexivity. Qed.

Lemma respects_raise {A} (e : exn) : respects R (@raise W A e).
Proof. intros s. reflexivity. Qed.

Lemma respects_get_self : respects R (@get_self W).
Proof. intros s. reflexivity. Qed.

Lemma respects_pure {A} (r : Res A) : respects R (fun s => (r, s)).
Proof. intros s. reflexivity. Qed.

Lemma respects_bind {A B} (c : M W A) (k : A -> M W B) :
  respects R c -> (forall a, respects R (k a)) -> respects R (bind c k).
Proof.
  intros Hc Hk s. unfold bind. specialize (Hc s).
  destruct (c s) as [[a|e|] s']; simpl in *; auto.
  transitivity s'; auto. apply Hk.
Qed.

Lemma respects_try_except {A} (c : M W A) (h : exn -> M W A) :
  respects R c -> (forall e, respects R (h e)) ->
  respects R (try_except c h).
Proof.
  intros Hc Hh s. unfold try_except. specialize (Hc s).
  destruct (c s) as [[a|e|] s']; simpl in *; auto.
  transitivity s'; auto. apply Hh.
Qed.

Lemma respects_while_true (n : nat) (body : M W unit) :
  respects R body -> respects R (while_true n body).
Proof.
  intros Hb. induction n as [|n IH]; simpl.
  - apply respects_ret.
  - apply respects_bind; auto.
Qed.

End Respects.

Lemma total_ret {W A} (a : A) : total (@ret W A a).
Proof. intros s. discriminate. Qed.

Lemma total_raise {W A} (e : exn) : total (@raise W A e).
Proof. intros s. discriminate. Qed.

Lemma total_get_self {W} : total (@get_self W).
Proof. intros s. discriminate. Qed.

Lemma total_set_self {W} (b : Bot) : total (@set_self W b).
Proof. intros s. discriminate. Qed.

Lemma total_emit {W} (e : Event) : total (@emit W e).
Proof. intros s. discriminate. Qed.

Lemma total_extern {W A} (f : W -> Outcome A * W) : total (extern f).
Proof.
  intros s. unfold extern. destruct (f (world s)) as [[a|e] w]; discriminate.
Qed.

Lemma total_bind {W A B} (c : M W A) (k : A -> M W B) :
  total c -> (forall a, total (k a)) -> total (bind c k).
Proof.
  intros Hc Hk s. unfold bind. specialize (Hc s).
  destruct (c s) as [[a|e|] s']; simpl in *;
    [apply Hk | discriminate | congruence].
Qed.

Lemma total_try_except {W A} (c : M W A) (h : exn -> M W A) :
  total c -> (forall e, total (h e)) -> total (try_except c h).
Proof.
  intros Hc Hh s. unfold try_except. specialize (Hc s).
  destruct (c s) as [[a|e|] s']; simpl in *;
    [discriminate | apply Hh | congruence].
Qed.

Create HintDb py discriminated.

#[local] Hint Resolve total_ret total_raise total_get_self total_set_self
  total_emit total_extern total_bind total_try_except : py.

#[local] Hint Resolve respects_ret respects_raise respects_get_self
  respects_bind respects_try_except respects_while_true : py.

(** *** The relations are preorders *)

#[local] Instance frozen_preorder {W} : PreOrder (@frozen W).
Proof.
  split.
  - intros s. split; reflexivity.
  - intros a b c [H1 H2] [H3 H4]. split; congruence.
Qed.

#[local] Instance same_self_preorder {W} : PreOrder (@same_self W).
Proof.
  split.
  - intros s. reflexivity.
  - intros a b c H1 H2. unfold same_self in *. congruence.
Qed.

#[local] Instance bounded_preorder {W} : PreOrder (@bounded W).
Proof.
  split.
  - intros s H. exact H.
  - intros a b c H1 H2 H. auto.
Qed.

#[local] Instance same_queue_preorder {W} : PreOrder (@same_queue W).
Proof.
  split.
  - intros s. reflexivity.
  - intros a b c H1 H2. unfold same_queue in *. congruence.
Qed.

Lemma silent_app (l1 l2 : list Event) :
  silent (l1 ++ l2) = silent l1 && silent l2.
Proof. unfold silent. apply forallb_app. Qed.

#[local] Instance quiet_preorder {W} : PreOrder (@quiet W).
Proof.
  split.
  - intros s. exists []. rewrite app_nil_r. split; reflexivity.
  - intros a b c [e1 [H1 Q1]] [e2 [H2 Q2]]. exists (e1 ++ e2).
    rewrite H2, H1, app_assoc, silent_app, Q1, Q2. split; reflexivity.
Qed.

#[local] Instance grows_preorder {W} : PreOrder (@grows W).
Proof.
  split.
  - intros s. exists []. rewrite app_nil_r. reflexivity.
  - intros a b c [e1 H1] [e2 H2]. exists (e1 ++ e2).
    rewrite H2, H1, app_assoc. reflexivity.
Qed.

(** *** The primitives *)


Lemma same_self_emit {W} (e : Event) : respects same_self (@emit W e).
Proof. intros s. reflexivity. Qed.

Lemma same_self_extern {W A} (f : W -> Outcome A * W) :
  respects same_self (extern f).
Proof. intros s. unfold extern. destruct (f (world s)). reflexivity. Qed.

Lemma same_self_put {W} (m : ChatbotMessage) : respects same_self (@put W m).
Proof. intros s. unfold put. destruct (full _); reflexivity. Qed.

Lemma same_self_get {W} : respects same_self (@get W).
Proof. intros s. unfold get. destruct (items _); reflexivity. Qed.

Lemma bounded_emit {W} (e : Event) : respects bounded (@emit W e).
Proof. intros s H. exact H. Qed.

Lemma bounded_extern {W A} (f : W -> Outcome A * W) :
  respects bounded (extern f).
Proof. intros s H. unfold extern. destruct (f (world s)). exact H. Qed.

Lemma bounded_set_self {W} (b : Bot) : respects bounded (@set_self W b).
Proof. intros s H. exact H. Qed.

Lemma bounded_put {W} (m : ChatbotMessage) : respects bounded (@put W m).
Proof.
  intros s [Hm Hl]. unfold put, full.
  set (n := List.length (items (task_queue s))) in *.
  destruct ((0 <? maxsize (task_queue s))
            && (maxsize (task_queue s) <=? Z.of_nat n)) eqn:Hf; simpl.
  - split; assumption.
  - split; [assumption|]. rewrite Hm in Hf. simpl in Hf.
    apply Z.leb_gt in Hf. simpl. rewrite length_app. simpl. lia.
Qed.

Lemma bounded_get {W} : respects bounded (@get W).
Proof.
  intros s [Hm Hl]. unfold get.
  destruct (items (task_queue s)) as [|m rest] eqn:Hi; simpl.
  - split; [assumption|]. rewrite Hi. simpl. lia.
  - split; [assumption|]. simpl in *. lia.
Qed.

Lemma same_queue_emit {W} (e : Event) : respects same_queue (@emit W e).
Proof. intros s. reflexivity. Qed.

Lemma same_queue_extern {W A} (f : W -> Outcome A * W) :
  respects same_queue (extern f).
Proof. intros s. unfold extern. destruct (f (world s)). reflexivity. Qed.

Lemma quiet_emit {W} (e : Event) :
  sends e = false -> respects quiet (@emit W e).
Proof.
  intros He s. exists [e]. simpl. rewrite He. split; reflexivity.
Qed.

Lemma quiet_extern {W A} (f : W -> Outcome A * W) : respects quiet (extern f).
Proof.
  intros s. unfold extern. destruct (f (world s)). simpl.
  exists []. rewrite app_nil_r. split; reflexivity.
Qed.

#[local] Hint Resolve same_self_emit same_self_extern same_self_put
  same_self_get bounded_emit bounded_extern bounded_set_self bounded_put
  bounded_get same_queue_emit same_queue_extern quiet_extern : py.

(** *** The methods *)

Ltac unfold_bot :=
  unfold process, process_resume, worker_iteration, process_incoming_message,
    process_complete, reply_image, txt2img, txt2img_four, txt2img_one,
    call_pipe, index, stripped_text, now, logger, create_pipe,
    create_pipe_for.

Ltac respects_step :=
  first
    [ progress intros
    | apply respects_ret
    | apply respects_raise
    | apply respects_get_self
    | apply respects_pure
    | apply respects_bind
    | apply respects_try_except
    | apply respects_while_true
    | apply quiet_emit; reflexivity
    | solve [auto with py]
    | match goal with
      | |- PreOrder _ => typeclasses eauto
      | |- respects _ (match ?x with _ => _ end) => destruct x
      | |- respects _ (if ?x then _ else _) => destruct x
      end ].

Ltac respects_all := unfold_bot; repeat respects_step.

Section Methods.

Context {W Data : Type} (ext : Externals W Data).
Context (R : State W -> State W -> Prop) `{!PreOrder R}.

Hypothesis R_emit : forall e, respects R (@emit W e).
Hypothesis R_extern :
  forall A (f : W -> Outcome A * W), respects R (extern f).
Hypothesis R_put : forall m, respects R (@put W m).
Hypothesis R_get : respects R (@get W).

Lemma respects_txt2img pipe m : respects R (txt2img ext pipe m).
Proof. respects_all. Qed.

Lemma respects_process_incoming_message m :
  respects R (process_incoming_message ext m).
Proof. respects_all. Qed.

Lemma respects_process data : respects R (process ext data).
Proof. respects_all. Qed.

Lemma respects_process_resume m : respects R (@process_resume W m).
Proof. respects_all. Qed.

Lemma respects_worker_iteration : respects R (worker_iteration ext).
Proof. respects_all. Qed.

End Methods.

Ltac total_step :=
first
  [ progress intros
  | apply total_ret
  | apply total_raise
  | apply total_get_self
  | apply total_emit
  | apply total_extern
  | apply total_bind
  | apply total_try_except
  | match goal with
    | |- total (match ?x with _ => _ end) => destruct x
    | |- total (if ?x then _ else _) => destruct x
    end ].

Section Generation.

Context {W Data : Type} (ext : Externals W Data).

Lemma total_txt2img pipe m : total (txt2img ext pipe m).
Proof. unfold_bot. repeat total_step. Qed.

(** Generation sends nothing and leaves the bot and the queue alone. *)
Lemma quiet_txt2img pipe m : respects quiet (txt2img ext pipe m).
Proof. respects_all. Qed.

Lemma same_queue_txt2img pipe m : respects same_queue (txt2img ext pipe m).
Proof. respects_all. Qed.

Lemma same_self_txt2img pipe m : respects same_self (txt2img ext pipe m).
Proof. respects_all. Qed.

(** A generation that returns has read the prompt. *)
Lemma txt2img_ret_text pipe m s img s' :
  txt2img ext pipe m s = (Ret img, s') ->
  exists txt, text m = Some {| content := Some txt |}.
Proof.
  unfold txt2img, txt2img_four, txt2img_one, stripped_text, bind, get_self.
  destruct (text m) as [[[txt|]]|].
  - intros _. exists txt. reflexivity.
  - destruct (_enable_four_images (self s)); discriminate.
  - destruct (_enable_four_images (self s)); discriminate.
Qed.

(** What [process_incoming_message] does when generation raises. *)
Lemma process_incoming_message_raise m s e s2 :
  generation_raises ext m s e s2 ->
  process_incoming_message ext m s =
    (Ret tt,
     {| self := self s2; task_queue := task_queue s2; world := world s2;
        trace := trace s2 ++
                 [Log ERROR "do sd process failed, error=%s" [OExn e]] |}).
Proof.
  intros [t0 [s1 [H1 H2]]].
  unfold process_incoming_message.
  unfold bind, logger, emit, now, extern, get_self, try_except, ret in *.
  simpl in *.
  destruct (time_time ext (world s)) as [t w]. simpl in *.
  injection H1 as _ <-.
  rewrite H2. reflexivity.
Qed.

End Generation.

(* ================================================================== *)
(** ** Generation failure *)

(** C4 as stated fails: the error record of a generation that raised
    carries the exception and nothing of the prompt; the one record of the
    task that carries the message is the one logged when the task was
    taken. *)
Lemma error_record_without_prompt :
  let ext := Demo.env 4 Demo.uploaded in
  let m := Demo.message "boom" in
  let tr := trace (snd (process_incoming_message ext m
                          (Demo.fresh Demo.inline_bot))) in
  filter is_error tr =
    [Log ERROR "do sd process failed, error=%s"
         [OExn (Error "CUDA out of memory")]] /\
  existsb carries_message (filter is_error tr) = false /\
  filter carries_message tr =
    [Log INFO "get task, incoming_message=%s" [OMsg m]].
Proof.
  intros ext m tr. split; [reflexivity|]. split; reflexivity.
Qed.

(** C4, amended. When the generation step of a request raises, the
    worker has logged the task with its message (the record that carries
    the prompt), logs the error with the exception only, and returns: the
    bot and the queue are as before (the task is not put back, generation
    is not tried again), and between the two log records nothing was
    uploaded and no reply was sent. *)
Theorem generation_exception_logged_and_dropped
        {W Data} (ext : Externals W Data) m s e s2 :
  generation_raises ext m s e s2 ->
  exists evs,
    process_incoming_message ext m s =
      (Ret tt,
       {| self := self s; task_queue := task_queue s; world := world s2;
          trace := trace s
                   ++ [Log INFO "get task, incoming_message=%s" [OMsg m]]
                   ++ evs
                   ++ [Log ERROR "do sd process failed, error=%s" [OExn e]] |})
    /\ silent evs = true.
Proof.
  intros H.
  rewrite (process_incoming_message_raise ext m s e s2 H).
  destruct H as [t0 [s1 [H1 H2]]].
  pose proof (quiet_txt2img ext (_pipe (self s)) m s1) as [evs [Ht Hq]].
  pose proof (same_queue_txt2img ext (_pipe (self s)) m s1) as Hqueue.
  pose proof (same_self_txt2img ext (_pipe (self s)) m s1) as Hself.
  unfold same_queue, same_self in *. rewrite H2 in *. simpl in *.
  unfold bind, logger, emit, now, extern in H1. simpl in H1.
  destruct (time_time ext (world s)) as [t w]. simpl in H1.
  injection H1 as _ <-. simpl in *.
  exists evs. split; [|exact Hq].
  rewrite Ht, Hqueue, Hself, <- !app_assoc. reflexivity.
Qed.

Lemma generation_exception_logged_and_dropped_witness :
  let ext := Demo.env 4 Demo.uploaded in
  let m := Demo.message "boom" in
  let s := Demo.fresh Demo.inline_bot in
  exists evs,
    process_incoming_message ext m s =
      (Ret tt,
       {| self := self s; task_queue := task_queue s; world := 1%nat;
          trace := trace s
                   ++ [Log INFO "get task, incoming_message=%s" [OMsg m]]
                   ++ evs
                   ++ [Log ERROR "do sd process failed, error=%s"
                           [OExn (Error "CUDA out of memory")]] |})
    /\ silent evs = true.
Proof.
  intros ext m s.
  apply (generation_exception_logged_and_dropped ext m s
           (Error "CUDA out of memory")
           (snd (txt2img ext (_pipe (self s)) m
                   (snd ((logger INFO "get task, incoming_message=%s" [OMsg m]
                          ;; now ext) s))))).
  exists (0 # 2), (snd ((logger INFO "get task, incoming_message=%s" [OMsg m]
                         ;; now ext) s)).
  split; reflexivity.
Defined.

(** C10. In inline mode, a callback whose generation step raises is
    acknowledged with [(STATUS_OK, 'OK')], and that is the only value
    [process] ever returns: the acknowledgment of a caught generation
    failure is the acknowledgment of a success. *)
Theorem inline_ack_same_on_generation_failure
        {W Data} (ext : Externals W Data) data m s e s2 :
  truthy (subprocess (_options (self s))) = false ->
  from_dict ext data = Returns m ->
  generation_raises ext m
    (snd (logger INFO "received incoming message, message=%s" [OMsg m] s))
    e s2 ->
  fst (process ext data s) = Ret (STATUS_OK, Py.lit "OK") /\
  (forall s0 a, fst (process ext data s0) = Ret a ->
                a = (STATUS_OK, Py.lit "OK")).
Proof.
  intros Hmode Hd Hg. split.
  - apply process_incoming_message_raise in Hg.
    unfold process. rewrite Hd.
    unfold bind at 1. simpl. unfold bind at 1.
    destruct (logger INFO "received incoming message, message=%s" [OMsg m] s)
      as [r s1] eqn:Hlog.
    unfold logger, emit in Hlog. injection Hlog as <- <-.
    unfold bind at 1, get_self. simpl.
    rewrite Hmode. unfold bind at 1.
    simpl in Hg. rewrite Hg. reflexivity.
  - intros s0 a. unfold process, bind, logger, emit, get_self, ret.
    destruct (from_dict ext data) as [m0|e0]; simpl; [|discriminate].
    destruct (truthy (subprocess (_options (self s0)))).
    + match goal with
      | |- context [put ?x ?y] => destruct (put x y) as [[[]|e1|] s3]
      end; simpl; congruence.
    + match goal with
      | |- context [process_incoming_message ext ?x ?y] =>
          destruct (process_incoming_message ext x y) as [[[]|e1|] s3]
      end; simpl; congruence.
Qed.

Lemma inline_ack_same_on_generation_failure_witness :
  let ext := Demo.env 4 Demo.uploaded in
  let s := Demo.fresh Demo.inline_bot in
  fst (process ext (Demo.Text "boom") s) = Ret (STATUS_OK, Py.lit "OK") /\
  (forall s0 a, fst (process ext (Demo.Text "boom") s0) = Ret a ->
                a = (STATUS_OK, Py.lit "OK")).
Proof.
  intros ext s.
  eapply (inline_ack_same_on_generation_failure ext (Demo.Text "boom")
            (Demo.message "boom") s (Error "CUDA out of memory"));
    [reflexivity | reflexivity |].
  exists (0 # 2).
  eexists. split; reflexivity.
Defined.

(* ================================================================== *)
(** ** Grid mode *)

Ltac decide_bounds :=
  repeat match goal with
         | |- context [(?a <=? ?b)%Z] => destruct (Z.leb_spec a b); try lia
         | |- context [(?a <? ?b)%Z] => destruct (Z.ltb_spec a b); try lia
         end.

(** The canvas of four 512 x 512 tiles. *)
Lemma img_merge_spec (i0 i1 i2 i3 : Image) :
  Forall (fun i => width i = 512 /\ height i = 512) [i0; i1; i2; i3] ->
  width (img_merge i0 i1 i2 i3) = 1024 /\
  height (img_merge i0 i1 i2 i3) = 1024 /\
  forall x y, 0 <= x < 512 -> 0 <= y < 512 ->
    getpixel (img_merge i0 i1 i2 i3) x y = getpixel i0 x y /\
    getpixel (img_merge i0 i1 i2 i3) (512 + x) y = getpixel i1 x y /\
    getpixel (img_merge i0 i1 i2 i3) x (512 + y) = getpixel i2 x y /\
    getpixel (img_merge i0 i1 i2 i3) (512 + x) (512 + y) = getpixel i3 x y.
Proof.
  intros H.
  rewrite !Forall_cons_iff in H.
  destruct H as ([W0 H0] & [W1 H1] & [W2 H2] & [W3 H3] & _).
  split; [reflexivity|]. split; [reflexivity|].
  intros x y Hx Hy. unfold img_merge, PIL.paste, PIL.new.
  cbn [getpixel width height].
  rewrite W0, W1, W2, W3, H0, H1, H2, H3.
  repeat split; decide_bounds; cbn [andb]; f_equal; lia.
Qed.

(** C2. In grid mode, when the engine returns four 512 x 512 images, the
    result is the PNG encoding of a 1024 x 1024 canvas that shows the first
    tile at (0, 0), the second at (512, 0), the third at (0, 512) and the
    fourth at (512, 512). *)
Theorem txt2img_four_grid
        {W Data} (ext : Externals W Data) p m txt s warm w1 i0 i1 i2 i3 w2 :
  text m = Some {| content := Some txt |} ->
  pipe_run ext p {| prompt := Py.strip txt; arg_height := 512;
                    arg_width := 512; num_inference_steps := Some 1;
                    num_images_per_prompt := None |} (world s)
    = (Returns warm, w1) ->
  pipe_run ext p {| prompt := Py.strip txt; arg_height := 512;
                    arg_width := 512; num_inference_steps := None;
                    num_images_per_prompt := Some 4 |} w1
    = (Returns [i0; i1; i2; i3], w2) ->
  Forall (fun i => width i = 512 /\ height i = 512) [i0; i1; i2; i3] ->
  exists canvas,
    fst (txt2img_four ext (Some p) m s) = Ret (Some (save ext canvas PNG)) /\
    width canvas = 1024 /\ height canvas = 1024 /\
    forall x y, 0 <= x < 512 -> 0 <= y < 512 ->
      getpixel canvas x y = getpixel i0 x y /\
      getpixel canvas (512 + x) y = getpixel i1 x y /\
      getpixel canvas x (512 + y) = getpixel i2 x y /\
      getpixel canvas (512 + x) (512 + y) = getpixel i3 x y.
Proof.
  intros Ht Hwarm Hmain Hsize.
  exists (img_merge i0 i1 i2 i3). split.
  - unfold txt2img_four, stripped_text, call_pipe. rewrite Ht.
    unfold bind, ret, emit, extern, index. simpl.
    rewrite Hwarm. simpl. rewrite Hmain. reflexivity.
  - apply img_merge_spec. exact Hsize.
Qed.

Lemma txt2img_four_grid_witness :
  let ext := Demo.env 4 Demo.uploaded in
  let m := Demo.message "a red cat" in
  exists canvas,
    fst (txt2img_four ext (Some Demo.pipe) m (Demo.fresh Demo.inline_bot))
      = Ret (Some (save ext canvas PNG)) /\
    width canvas = 1024 /\ height canvas = 1024 /\
    forall x y, 0 <= x < 512 -> 0 <= y < 512 ->
      getpixel canvas x y = getpixel (Demo.tile (255, 0, 0)) x y /\
      getpixel canvas (512 + x) y = getpixel (Demo.tile (0, 255, 0)) x y /\
      getpixel canvas x (512 + y) = getpixel (Demo.tile (0, 0, 255)) x y /\
      getpixel canvas (512 + x) (512 + y) = getpixel (Demo.tile (9, 9, 9)) x y.
Proof.
  intros ext m.
  apply (txt2img_four_grid ext Demo.pipe m (Py.lit "a red cat")
           (Demo.fresh Demo.inline_bot) Demo.tiles 0%nat
           (Demo.tile (255, 0, 0)) (Demo.tile (0, 255, 0))
           (Demo.tile (0, 0, 255)) (Demo.tile (9, 9, 9)) 0%nat);
    [reflexivity | reflexivity | reflexivity |].
  repeat constructor.
Defined.

(** C1, at an engine that returns three images: [txt2img_four] logs the
    error and returns [None] without raising, so [process_incoming_message]
    goes on to deliver: [None] is uploaded and a reply is sent. *)
Lemma three_images_reply_dispatched :
  let ext := Demo.env 3 Demo.uploaded in
  let m := Demo.message "a red cat" in
  let s := Demo.fresh Demo.inline_bot in
  fst (txt2img_four ext (Some Demo.pipe) m s) = Ret None /\
  fst (process_incoming_message ext m s) = Ret tt /\
  In (Log ERROR "txt2img_four failed, not enough images, images.size=%d"
          [OInt 3])
     (trace (snd (process_incoming_message ext m s))) /\
  In (Upload None) (trace (snd (process_incoming_message ext m s))) /\
  exists body,
    In (ReplyMarkdown (Py.lit "Stable Diffusion txt2img") body m)
       (trace (snd (process_incoming_message ext m s))).
Proof.
  intros ext m s.
  split; [reflexivity|]. split; [reflexivity|].
  split; [vm_compute; tauto|]. split; [vm_compute; tauto|].
  eexists. vm_compute. do 6 right. left. reflexivity.
Qed.

(* ================================================================== *)
(** ** The reply *)

(** What [reply_image] does when the upload returns a media id. *)
Lemma reply_image_trace {W Data} (ext : Externals W Data)
      img x m txt s media w' :
  text m = Some {| content := Some txt |} ->
  upload_to_dingtalk ext img (world s) = (Returns media, w') ->
  trace (snd (reply_image ext img x m s)) =
    trace s ++
    [Upload img;
     Log INFO "media_id=%s" [OValue media];
     ReplyMarkdown (Py.lit "Stable Diffusion txt2img")
       (reply_content (Py.strip txt) (str_of_value media)
          (Py.repr_thousandths (Py.round3 x))) m].
Proof.
  intros Ht Hup.
  unfold reply_image, stripped_text. rewrite Ht.
  unfold bind, emit, extern, logger, ret. simpl. rewrite Hup. simpl.
  destruct (reply_markdown ext _ _ m w') as [[v|e] w'']; simpl;
    rewrite <- !app_assoc; reflexivity.
Qed.

(** C7. The body of the reply sent for a completed task is the fixed
    markdown text around three fields, the first of which is the prompt
    stripped: the prompt is that field between two runs of white space,
    and the field neither begins nor ends with a white space character;
    the second field, the media id the upload returned, is the target of the
    inline image; the attribution lines are constant. *)
Theorem reply_embeds_stripped_prompt {W Data} (ext : Externals W Data)
        img x m txt s media w' :
  text m = Some {| content := Some txt |} ->
  upload_to_dingtalk ext img (world s) = (Returns media, w') ->
  exists body cost lead trail,
    In (ReplyMarkdown (Py.lit "Stable Diffusion txt2img") body m)
       (trace (snd (reply_image ext img x m s))) /\
    body = Py.lit "#### Prompts: " ++ Py.strip txt ++ Py.nl ++ Py.nl ++
           Py.lit "![image](" ++ str_of_value media ++ Py.lit ")" ++
           Py.nl ++ Py.nl ++
           Py.lit "> cost " ++ cost ++ Py.lit "s" ++ Py.nl ++
           Py.lit "> " ++ Py.nl ++
           Py.lit "> Powered by Stable Diffusion" ++ Py.nl ++
           Py.lit "> " ++ Py.nl ++
           Py.lit "> via https://github.com/chzealot/dingtalk-stable-diffusion"
           ++ Py.nl /\
    txt = lead ++ Py.strip txt ++ trail /\
    forallb Py.isspace lead = true /\
    forallb Py.isspace trail = true /\
    (forall c, hd_error (Py.strip txt) = Some c -> Py.isspace c = false) /\
    (forall c, hd_error (rev (Py.strip txt)) = Some c -> Py.isspace c = false).
Proof.
  intros Ht Hup.
  destruct (strip_spec txt) as [[lead [trail [Hs [Hl Hr]]]] [Hh Hlast]].
  exists (reply_content (Py.strip txt) (str_of_value media)
            (Py.repr_thousandths (Py.round3 x))),
         (Py.repr_thousandths (Py.round3 x)), lead, trail.
  split; [|split; [reflexivity|auto]].
  rewrite (reply_image_trace ext img x m txt s media w' Ht Hup).
  apply in_or_app. right. simpl. auto.
Qed.

Lemma reply_embeds_stripped_prompt_witness :
  let ext := Demo.env 4 Demo.uploaded in
  let m := Demo.message "  a blue sky  " in
  let txt := Py.lit "  a blue sky  " in
  exists body cost lead trail,
    In (ReplyMarkdown (Py.lit "Stable Diffusion txt2img") body m)
       (trace (snd (reply_image ext (Some []) (3 # 2) m
                      (Demo.fresh Demo.inline_bot)))) /\
    body = Py.lit "#### Prompts: " ++ Py.strip txt ++ Py.nl ++ Py.nl ++
           Py.lit "![image](" ++ Py.lit "@media123" ++ Py.lit ")" ++
           Py.nl ++ Py.nl ++
           Py.lit "> cost " ++ cost ++ Py.lit "s" ++ Py.nl ++
           Py.lit "> " ++ Py.nl ++
           Py.lit "> Powered by Stable Diffusion" ++ Py.nl ++
           Py.lit "> " ++ Py.nl ++
           Py.lit "> via https://github.com/chzealot/dingtalk-stable-diffusion"
           ++ Py.nl /\
    txt = lead ++ Py.strip txt ++ trail /\
    forallb Py.isspace lead = true /\
    forallb Py.isspace trail = true /\
    (forall c, hd_error (Py.strip txt) = Some c -> Py.isspace c = false) /\
    (forall c, hd_error (rev (Py.strip txt)) = Some c -> Py.isspace c = false).
Proof.
  intros ext m txt.
  apply (reply_embeds_stripped_prompt ext (Some []) (3 # 2) m txt
           (Demo.fresh Demo.inline_bot) (VStr (Py.lit "@media123")) 0%nat);
    reflexivity.
Defined.

(** *** The elapsed time *)

Lemma round3_nearest (x : Py.float) :
  2 * Z.abs (Qnum x * 1000 - Py.round3 x * Z.pos (Qden x)) <= Z.pos (Qden x).
Proof.
  unfold Py.round3.
  pose proof (Z.div_mod (Qnum x * 1000) (Z.pos (Qden x)) ltac:(lia)) as Hdm.
  pose proof (Z.mod_pos_bound (Qnum x * 1000) (Z.pos (Qden x)) ltac:(lia))
    as Hr.
  set (d := Z.pos (Qden x)) in *.
  set (q := Qnum x * 1000 / d) in *.
  set (r := (Qnum x * 1000) mod d) in *.
  destruct (Z.ltb_spec (2 * r) d); [nia|].
  destruct (Z.ltb_spec d (2 * r)); [nia|].
  destruct (Z.even q); nia.
Qed.

Lemma string_of_uint_digits (d : Decimal.uint) :
  forallb isdigit (Py.lit (NilEmpty.string_of_uint d)) = true.
Proof. induction d; simpl; auto. Qed.

Lemma of_N_digits (n : N) : forallb isdigit (Py.of_N n) = true.
Proof.
  unfold Py.of_N, NilZero.string_of_uint.
  destruct (N.to_uint n); try reflexivity; apply string_of_uint_digits.
Qed.

Lemma of_Z_digit (d : Z) :
  0 <= d <= 9 -> exists c, Py.of_Z d = [c] /\ isdigit c = true.
Proof.
  intros H.
  assert (Hd : d = 0 \/ d = 1 \/ d = 2 \/ d = 3 \/ d = 4 \/ d = 5 \/ d = 6
               \/ d = 7 \/ d = 8 \/ d = 9) by lia.
  repeat (destruct Hd as [-> | Hd]; [eexists; split; reflexivity|]).
  subst d. eexists; split; reflexivity.
Qed.

Lemma frac_digits_spec (f : Z) :
  0 <= f < 1000 ->
  (1 <= List.length (Py.frac_digits f) <= 3)%nat /\
  forallb isdigit (Py.frac_digits f) = true.
Proof.
  intros Hf. unfold Py.frac_digits.
  destruct (of_Z_digit (f / 100)) as [a [Ha Da]].
  { pose proof (Z.div_pos f 100). pose proof (Z.div_lt_upper_bound f 100 10).
    lia. }
  destruct (of_Z_digit (f / 10 mod 10)) as [b [Hb Db]].
  { pose proof (Z.mod_pos_bound (f / 10) 10). lia. }
  destruct (of_Z_digit (f mod 10)) as [c [Hc Dc]].
  { pose proof (Z.mod_pos_bound f 10). lia. }
  rewrite Ha, Hb, Hc.
  destruct (f mod 1000 =? 0); [split; [simpl; lia | reflexivity]|].
  destruct (f mod 100 =? 0); [simpl; rewrite Da; split; [lia|reflexivity]|].
  destruct (f mod 10 =? 0); simpl; rewrite Da, Db, ?Dc;
    split; (lia || reflexivity).
Qed.

Lemma decimals_after_digits (pre post : Py.str) :
  forallb (fun c => negb (N.eqb c 46)) pre = true ->
  decimals (pre ++ 46%N :: post) = post.
Proof.
  induction pre as [|c pre IH]; simpl.
  - reflexivity.
  - destruct (N.eqb c 46); simpl; [discriminate | exact IH].
Qed.

Lemma digits_no_point (s : Py.str) :
  forallb isdigit s = true ->
  forallb (fun c => negb (N.eqb c 46)) s = true.
Proof.
  rewrite !forallb_forall. intros H c Hc. specialize (H c Hc).
  unfold isdigit in H. apply andb_prop in H as [H1 H2].
  apply N.leb_le in H1. apply negb_true_iff, N.eqb_neq. lia.
Qed.

(** The decimals printed for a rounded float. *)
Lemma repr_thousandths_decimals (k : Z) :
  (1 <= List.length (decimals (Py.repr_thousandths k)) <= 3)%nat /\
  forallb isdigit (decimals (Py.repr_thousandths k)) = true.
Proof.
  unfold Py.repr_thousandths.
  assert (Hfrac : 0 <= Z.abs k mod 1000 < 1000)
    by (apply Z.mod_pos_bound; lia).
  assert (Hint : 0 <= Z.abs k / 1000) by (apply Z.div_pos; lia).
  replace (Py.lit ".") with [46%N] by reflexivity.
  rewrite app_assoc. change ([46%N] ++ ?l) with (46%N :: l).
  rewrite decimals_after_digits.
  - apply frac_digits_spec. exact Hfrac.
  - rewrite forallb_app. apply andb_true_intro. split.
    + destruct (k <? 0); reflexivity.
    + apply digits_no_point. unfold Py.of_Z.
      destruct (Z.ltb_spec (Z.abs k / 1000) 0); [lia|]. apply of_N_digits.
Qed.

(** C8 as stated fails: a generation that takes a second and a half is
    reported as [1.5], with one decimal digit. *)
Lemma elapsed_with_one_decimal :
  let ext := Demo.env 4 Demo.uploaded in
  let m := Demo.message "a red cat" in
  In (ReplyMarkdown (Py.lit "Stable Diffusion txt2img")
        (reply_content (Py.lit "a red cat") (Py.lit "@media123")
           (Py.lit "1.5")) m)
     (trace (snd (process_incoming_message ext m
                    (Demo.fresh Demo.inline_bot)))) /\
  Py.repr_thousandths (Py.round3 (3 # 2)) = Py.lit "1.5" /\
  List.length (decimals (Py.lit "1.5")) = 1%nat /\
  List.length (decimals (Py.lit "1.5")) <> 3%nat.
Proof.
  intros ext m.
  split; [vm_compute; tauto|].
  split; [reflexivity|]. split; [reflexivity|]. discriminate.
Qed.

(** C8, amended. The elapsed time in the body of a reply is [str] of the
    seconds rounded to the nearest thousandth: for a duration below
    [10^12] seconds it is printed with at least one and at most three
    decimal digits. *)
Theorem elapsed_rounded_to_thousandths {W Data} (ext : Externals W Data)
        img x m txt s media w' :
  text m = Some {| content := Some txt |} ->
  upload_to_dingtalk ext img (world s) = (Returns media, w') ->
  (0 <= x)%Q -> (x < 1000000000000)%Q ->
  exists cost k,
    In (ReplyMarkdown (Py.lit "Stable Diffusion txt2img")
          (reply_content (Py.strip txt) (str_of_value media) cost) m)
       (trace (snd (reply_image ext img x m s))) /\
    cost = Py.repr_thousandths k /\
    2 * Z.abs (Qnum x * 1000 - k * Z.pos (Qden x)) <= Z.pos (Qden x) /\
    (1 <= List.length (decimals cost) <= 3)%nat /\
    forallb isdigit (decimals cost) = true.
Proof.
  intros Ht Hup _ _.
  exists (Py.repr_thousandths (Py.round3 x)), (Py.round3 x).
  split; [|split; [reflexivity|split]].
  - rewrite (reply_image_trace ext img x m txt s media w' Ht Hup).
    apply in_or_app. right. simpl. auto.
  - apply round3_nearest.
  - apply repr_thousandths_decimals.
Qed.

Lemma elapsed_rounded_to_thousandths_witness :
  let ext := Demo.env 4 Demo.uploaded in
  let m := Demo.message "a red cat" in
  exists cost k,
    In (ReplyMarkdown (Py.lit "Stable Diffusion txt2img")
          (reply_content (Py.strip (Py.lit "a red cat"))
             (Py.lit "@media123") cost) m)
       (trace (snd (reply_image ext (Some []) (79 # 64) m
                      (Demo.fresh Demo.inline_bot)))) /\
    cost = Py.repr_thousandths k /\
    2 * Z.abs (79 * 1000 - k * 64) <= 64 /\
    (1 <= List.length (decimals cost) <= 3)%nat /\
    forallb isdigit (decimals cost) = true.
Proof.
  intros ext m.
  apply (elapsed_rounded_to_thousandths ext (Some []) (79 # 64) m
           (Py.lit "a red cat") (Demo.fresh Demo.inline_bot)
           (VStr (Py.lit "@media123")) 0%nat);
    [reflexivity | reflexivity | discriminate | reflexivity].
Defined.

(* ================================================================== *)
(** ** Events that cannot be read *)

(** C5 as stated fails: on data that [from_dict] cannot read, [process]
    raises; it logs nothing and returns no acknowledgment.  And [process]
    checks nothing of what [from_dict] returns: in offload mode a message
    without text is put on the task queue. *)
Lemma unreadable_event_raises :
  let ext := Demo.env 4 Demo.uploaded in
  let s := Demo.fresh Demo.inline_bot in
  let s' := Demo.fresh Demo.offload_bot in
  process ext Demo.Unreadable s = (Raise AttributeError, s) /\
  trace (snd (process ext Demo.Unreadable s)) = [] /\
  (forall a, fst (process ext Demo.Unreadable s) <> Ret a) /\
  fst (process ext Demo.NoText s') = Ret (STATUS_OK, Py.lit "OK") /\
  items (task_queue (snd (process ext Demo.NoText s')))
    = [{| conversation_id := Py.lit "cid42"; sender_id := Py.lit "alice";
          text := None |}].
Proof.
  intros ext s s'. split; [reflexivity|]. split; [reflexivity|].
  split; [intros a; discriminate|]. split; reflexivity.
Qed.

(** C5, amended. When [from_dict] raises on the data of a callback,
    [process] raises the same exception to its caller and leaves the
    process as it was: nothing is logged, nothing is put on the task queue
    and nothing is generated. *)
Theorem unreadable_event_propagates {W Data} (ext : Externals W Data)
        data e s :
  from_dict ext data = Raises e ->
  process ext data s = (Raise e, s).
Proof.
  intros H. unfold process, bind. rewrite H. reflexivity.
Qed.

Lemma unreadable_event_propagates_witness :
  process (Demo.env 4 Demo.uploaded) Demo.Unreadable
          (Demo.fresh Demo.offload_bot)
    = (Raise AttributeError, Demo.fresh Demo.offload_bot).
Proof.
  apply (unreadable_event_propagates (Demo.env 4 Demo.uploaded)
           Demo.Unreadable AttributeError (Demo.fresh Demo.offload_bot)).
  reflexivity.
Defined.

(* ================================================================== *)
(** ** The worker loop *)

Section Worker.

Context {W Data : Type} (ext : Externals W Data).

(** The [try] block of [process_incoming_message] returns an image (or
    [None]) with a duration, and only for a message whose text it read. *)
Lemma try_block_inv pipe m s r s' :
  (begin_time <- now ext ;;
   image_content <- txt2img ext pipe m ;;
   end_time <- now ext ;;
   ret (Some (image_content, (end_time - begin_time)%Q))) s = (Ret r, s') ->
  (exists img el, r = Some (img, el)) /\
  (exists txt, text m = Some {| content := Some txt |}).
Proof.
  unfold bind at 1.
  destruct (now ext s) as [[t0|e|] s0]; try discriminate.
  unfold bind at 1.
  destruct (txt2img ext pipe m s0) as [[img|e|] s1] eqn:Hg;
    try discriminate.
  unfold bind, now, extern, ret.
  destruct (time_time ext (world s1)) as [t1 w1]. simpl.
  intros H. injection H as <- <-. split.
  - eauto.
  - eapply txt2img_ret_text. exact Hg.
Qed.

Lemma total_try_block pipe m :
  total (begin_time <- now ext ;;
         image_content <- txt2img ext pipe m ;;
         end_time <- now ext ;;
         ret (Some (image_content, (end_time - begin_time)%Q))).
Proof.
  unfold now.
  repeat first [ progress intros | apply total_txt2img | apply total_bind
               | apply total_ret | apply total_extern ].
Qed.

Hypothesis delivery : delivery_returns ext.

Lemma process_complete_returns img x m txt s :
  text m = Some {| content := Some txt |} ->
  fst (process_complete ext
         (Some {| image := img; incoming_message := m;
                  elapse_seconds := x |}) s) = Ret tt.
Proof.
  intros Ht. destruct delivery as [Hup Hrep].
  unfold process_complete, reply_image, stripped_text. simpl. rewrite Ht.
  unfold bind, emit, extern, logger, ret. simpl.
  destruct (Hup img (world s)) as [v Hv].
  destruct (upload_to_dingtalk ext img (world s)) as [o w1].
  simpl in Hv. subst o. simpl.
  match goal with
  | |- context [reply_markdown ext ?t ?b m w1] =>
      destruct (Hrep t b m w1) as [v' Hv'];
      destruct (reply_markdown ext t b m w1) as [o' w2]
  end.
  simpl in Hv'. subst o'. reflexivity.
Qed.

(** With a delivery that returns, every task is processed to the end,
    whatever generation does. *)
Lemma process_incoming_message_returns m s :
  fst (process_incoming_message ext m s) = Ret tt.
Proof.
  unfold process_incoming_message.
  pose proof (try_block_inv (_pipe (self s)) m) as Hinv.
  pose proof (total_try_block (_pipe (self s)) m) as Htot.
  unfold bind at 1. unfold logger at 1, emit at 1. cbv beta iota.
  unfold bind at 1. unfold get_self at 1. cbv beta iota. cbn [self].
  unfold bind at 1. unfold try_except.
  match goal with
  | |- context [match ?c ?s1 with _ => _ end] =>
      specialize (Hinv s1); specialize (Htot s1);
      destruct (c s1) as [[r|e|] s2]
  end.
  - destruct (Hinv r s2 eq_refl) as [[img [el ->]] [txt Ht]].
    apply process_complete_returns with txt. exact Ht.
  - reflexivity.
  - exfalso. apply Htot. reflexivity.
Qed.

Lemma worker_iteration_takes_head m rest q s :
  task_queue s = {| maxsize := q; items := m :: rest |} ->
  fst (worker_iteration ext s) = Ret tt /\
  items (task_queue (snd (worker_iteration ext s))) = rest.
Proof.
  intros Hq. unfold worker_iteration, bind, get. rewrite Hq. simpl.
  match goal with
  | |- context [process_incoming_message ext m ?s1] =>
      pose proof (process_incoming_message_returns m s1) as Hr;
      pose proof (respects_process_incoming_message ext same_queue
                    same_queue_emit (@same_queue_extern W)
                    m s1) as Hsame;
      destruct (process_incoming_message ext m s1) as [r s2]
  end.
  simpl in *. subst r. split; [reflexivity|].
  unfold same_queue in Hsame. rewrite Hsame. reflexivity.
Qed.

End Worker.

(* ================================================================== *)
(** ** The two processes together *)

Lemma grows_emit {W} (e : Event) : respects grows (@emit W e).
Proof. intros s. exists [e]. reflexivity. Qed.

Lemma grows_extern {W A} (f : W -> Outcome A * W) : respects grows (extern f).
Proof.
  intros s. unfold extern. destruct (f (world s)). simpl.
  exists []. rewrite app_nil_r. reflexivity.
Qed.

Lemma grows_put {W} (m : ChatbotMessage) : respects grows (@put W m).
Proof.
  intros s. unfold put. destruct (full _); simpl;
    exists []; rewrite app_nil_r; reflexivity.
Qed.

Lemma grows_get {W} : respects grows (@get W).
Proof.
  intros s. unfold get. destruct (items _); simpl;
    exists []; rewrite app_nil_r; reflexivity.
Qed.

Lemma grows_set_self {W} (b : Bot) : respects grows (@set_self W b).
Proof. intros s. exists []. simpl. rewrite app_nil_r. reflexivity. Qed.

#[local] Hint Resolve grows_emit grows_extern grows_put grows_get
  grows_set_self : py.

Section Reachable.

Context {W Data : Type} (ext : Externals W Data).

Lemma same_self_process data : respects same_self (process ext data).
Proof. apply respects_process; auto with py; typeclasses eauto. Qed.

Lemma same_self_process_resume m :
  respects same_self (@process_resume W m).
Proof. apply respects_process_resume; auto with py; typeclasses eauto. Qed.

Lemma same_self_worker_iteration : respects same_self (worker_iteration ext).
Proof.
  apply respects_worker_iteration; auto with py; typeclasses eauto.
Qed.

Lemma bounded_process data : respects bounded (process ext data).
Proof. apply respects_process; auto with py; typeclasses eauto. Qed.

Lemma bounded_process_resume m : respects bounded (@process_resume W m).
Proof. apply respects_process_resume; auto with py; typeclasses eauto. Qed.

Lemma bounded_worker_iteration : respects bounded (worker_iteration ext).
Proof.
  apply respects_worker_iteration; auto with py; typeclasses eauto.
Qed.

Lemma bounded_setup : respects bounded (do_sd_process_setup ext).
Proof. unfold do_sd_process_setup. respects_all. Qed.

(** [do_sd_process] assigns [self._pipe] and nothing else. *)
Lemma frozen_setup : respects frozen (do_sd_process_setup ext).
Proof.
  intros s.
  unfold do_sd_process_setup, create_pipe, create_pipe_for, logger, bind,
    emit, extern, get_self, set_self, ret. simpl.
  destruct (load_pipe ext _ (world s)) as [[[]|e] w]; simpl;
    split; reflexivity.
Qed.

Lemma boot_inv options w y0 :
  boot ext options w = Ret y0 -> Inv options y0.
Proof.
  unfold boot, __init__, create_pipe_for, bind, extern, ret.
  destruct (negb (truthy (subprocess options))); simpl.
  - destruct (load_pipe ext _ w) as [[[]|e] w']; simpl;
      intros H; [|discriminate].
    injection H as <-. split; simpl; try reflexivity; try discriminate.
    split; simpl; [reflexivity | lia].
  - intros H. injection H as <-.
    split; simpl; try reflexivity; try discriminate.
    split; simpl; [reflexivity | lia].
Qed.

Lemma step_inv options a y : Inv options y -> Inv options (sys_step ext a y).
Proof.
  intros HI. pose proof HI as [Ho Hp Hw Hq].
  destruct a as [data| | | |i]; simpl.
  - (* a callback *)
    unfold on_callback. destruct (ingest y); [|exact HI].
    pose proof (same_self_process data (view (parent y) y)) as Hs.
    pose proof (bounded_process data (view (parent y) y) Hq) as Hb.
    destruct (process ext data (view (parent y) y)) as [r s].
    unfold same_self in Hs. simpl in *.
    split; simpl; rewrite ?Hs; assumption.
  - (* the pending put goes on *)
    unfold on_put_resumes. destruct (ingest y) as [|m]; [exact HI|].
    pose proof (same_self_process_resume m (view (parent y) y)) as Hs.
    pose proof (bounded_process_resume m (view (parent y) y) Hq) as Hb.
    destruct (process_resume m (view (parent y) y)) as [[a|e|] s];
      [|exact HI|exact HI].
    unfold same_self in Hs. simpl in *.
    split; simpl; rewrite ?Hs; assumption.
  - (* a worker is forked *)
    unfold on_pre_start.
    destruct (worker y) eqn:Hwk;
      (destruct (truthy (subprocess (_options (parent y)))); [|exact HI]);
      unfold bind at 1; unfold logger at 1, emit at 1; cbv beta iota;
      match goal with
      | |- context [do_sd_process_setup ext ?s1] =>
          pose proof (frozen_setup s1) as [Hf _];
          pose proof (bounded_setup s1 Hq) as Hb;
          destruct (do_sd_process_setup ext s1) as [r s]
      end;
      simpl in *; split; simpl; try assumption.
    intros b Hb'. destruct r; try discriminate;
      injection Hb' as <-; congruence.
  - (* a turn of the first worker *)
    unfold on_worker_turn.
    destruct (worker y) as [|b|e] eqn:Hwk; [exact HI| |exact HI].
    pose proof (same_self_worker_iteration (view b y)) as Hs.
    pose proof (bounded_worker_iteration (view b y) Hq) as Hb.
    destruct (worker_iteration ext (view b y)) as [r s].
    unfold same_self in Hs. simpl in *. split; simpl; try assumption.
    intros b' Hb'. destruct r; try discriminate;
      injection Hb' as <-; rewrite Hs; apply Hw; reflexivity.
  - (* a turn of a later worker *)
    unfold on_other_turn.
    destruct (nth_error (others y) i) as [[|b|e]|]; try exact HI.
    pose proof (bounded_worker_iteration (view b y) Hq) as Hb.
    destruct (worker_iteration ext (view b y)) as [r s].
    simpl in *. split; simpl; assumption.
Qed.

Lemma run_inv options schedule y :
  Inv options y -> Inv options (run ext schedule y).
Proof.
  revert y. induction schedule as [|a l IH]; intros y H; simpl.
  - exact H.
  - apply IH. apply step_inv. exact H.
Qed.

End Reachable.

Section WorkerTurns.

Context {W Data : Type} (ext : Externals W Data).

(** The first thing the worker does with a task is to log it. *)
Lemma process_incoming_message_logs_task m s :
  exists evs,
    trace (snd (process_incoming_message ext m s)) =
      trace s ++ Log INFO "get task, incoming_message=%s" [OMsg m] :: evs.
Proof.
  unfold process_incoming_message.
  unfold bind at 1. unfold logger at 1, emit at 1. cbv beta iota.
  match goal with
  | |- context [snd (?c ?s1)] =>
      assert (Hg : respects grows c) by respects_all;
      destruct (Hg s1) as [evs He]
  end.
  exists evs. rewrite He. simpl. rewrite <- app_assoc. reflexivity.
Qed.

Hypothesis delivery : delivery_returns ext.

(** A turn of a running worker on a queue that is not empty. *)
Lemma worker_turn_head y b m rest :
  worker y = Running b ->
  items (queue y) = m :: rest ->
  worker (on_worker_turn ext y) = Running b /\
  items (queue (on_worker_turn ext y)) = rest /\
  exists evs,
    history (on_worker_turn ext y) =
      history y ++ Log INFO "get task, incoming_message=%s" [OMsg m] :: evs.
Proof.
  intros Hw Hq. unfold on_worker_turn. rewrite Hw.
  assert (Hview : task_queue (view b y)
                  = {| maxsize := maxsize (queue y); items := m :: rest |})
    by (simpl; destruct (queue y); simpl in *; congruence).
  destruct (worker_iteration_takes_head ext delivery m rest _ _ Hview)
    as [Hr Hi].
  pose proof (same_self_worker_iteration ext (view b y)) as Hs.
  assert (Hh : exists evs,
             trace (snd (worker_iteration ext (view b y))) =
               history y
               ++ Log INFO "get task, incoming_message=%s" [OMsg m] :: evs).
  { unfold worker_iteration, bind, get. rewrite Hview. simpl.
    match goal with
    | |- context [process_incoming_message ext m ?s1] =>
        destruct (process_incoming_message_logs_task m s1) as [evs He];
        destruct (process_incoming_message ext m s1) as [[[]|e|] s2]
    end; exists evs; exact He. }
  destruct (worker_iteration ext (view b y)) as [r s].
  unfold same_self in Hs. simpl in *. subst r. rewrite Hs.
  split; [reflexivity|]. split; assumption.
Qed.

Lemma worker_turns n :
  forall y b,
    worker y = Running b ->
    (n <= List.length (items (queue y)))%nat ->
    worker (run ext (List.repeat WorkerTurn n) y) = Running b /\
    items (queue (run ext (List.repeat WorkerTurn n) y))
      = skipn n (items (queue y)) /\
    (exists evs,
        history (run ext (List.repeat WorkerTurn n) y) = history y ++ evs) /\
    (forall m, In m (firstn n (items (queue y))) ->
               In (Log INFO "get task, incoming_message=%s" [OMsg m])
                  (history (run ext (List.repeat WorkerTurn n) y))).
Proof.
  induction n as [|n IH]; intros y b Hw Hn.
  - simpl. split; [exact Hw|]. split; [reflexivity|]. split.
    + exists []. rewrite app_nil_r. reflexivity.
    + intros m [].
  - destruct (items (queue y)) as [|m rest] eqn:Hq; [simpl in Hn; lia|].
    destruct (worker_turn_head y b m rest Hw Hq) as [Hw1 [Hq1 [evs1 Hh1]]].
    simpl in Hn.
    destruct (IH (on_worker_turn ext y) b Hw1 ltac:(rewrite Hq1; lia))
      as [Hw2 [Hq2 [[evs2 Hh2] Hlog]]].
    change (run ext (List.repeat WorkerTurn (S n)) y)
      with (run ext (List.repeat WorkerTurn n) (on_worker_turn ext y)).
    split; [exact Hw2|]. split; [rewrite Hq2, Hq1; reflexivity|]. split.
    + exists ((Log INFO "get task, incoming_message=%s" [OMsg m] :: evs1)
               ++ evs2).
      rewrite Hh2, Hh1, <- app_assoc. reflexivity.
    + intros m' [->|Hin].
      * rewrite Hh2, Hh1. apply in_or_app. left.
        apply in_or_app. right. left. reflexivity.
      * apply Hlog. rewrite Hq1. exact Hin.
Qed.

End WorkerTurns.

(** C3 as stated fails: with two requests queued and an upload that
    raises, the exception leaves the loop of [do_sd_process] on the first
    request; the worker process has ended and the second request stays in
    the queue, whatever turns the worker is given. *)
Lemma upload_failure_ends_worker :
  let ext := Demo.env 4 Demo.upload_fails in
  let s := Demo.queued Demo.offload_bot
             [Demo.message "a"; Demo.message "b"] in
  fst (do_sd_process ext 3 s) = Raise (Error "upload failed") /\
  items (task_queue (snd (do_sd_process ext 3 s))) = [Demo.message "b"] /\
  exists y0,
    boot ext (Demo.options (Some true)) 0%nat = Ret y0 /\
    let y := run ext [PreStart; Callback (Demo.Text "a");
                      Callback (Demo.Text "b");
                      WorkerTurn; WorkerTurn; WorkerTurn] y0 in
    worker y = Exited (Error "upload failed") /\
    items (queue y) = [Demo.message "b"].
Proof.
  intros ext s. split; [reflexivity|]. split; [reflexivity|].
  eexists. split; [reflexivity|].
  split; reflexivity.
Qed.

(** C3, amended. No exception of the generation step ends the worker
    loop: as long as the calls that deliver a reply return, a running
    worker given [n] turns on a queue of at least [n] requests is still
    running afterwards, has taken the first [n] requests off the queue and
    has logged each of them as a task, whatever the engine did on any of
    them. *)
Theorem worker_survives_generation_failures
        {W Data} (ext : Externals W Data) y b n :
  delivery_returns ext ->
  worker y = Running b ->
  (n <= List.length (items (queue y)))%nat ->
  worker (run ext (List.repeat WorkerTurn n) y) = Running b /\
  items (queue (run ext (List.repeat WorkerTurn n) y))
    = skipn n (items (queue y)) /\
  (forall m, In m (firstn n (items (queue y))) ->
             In (Log INFO "get task, incoming_message=%s" [OMsg m])
                (history (run ext (List.repeat WorkerTurn n) y))).
Proof.
  intros Hd Hw Hn.
  destruct (worker_turns ext Hd n y b Hw Hn) as [H1 [H2 [_ H3]]].
  auto.
Qed.

Lemma worker_survives_generation_failures_witness :
  let ext := Demo.env 4 Demo.uploaded in
  let y := run ext [PreStart; Callback (Demo.Text "boom");
                    Callback (Demo.Text "a red cat")] Demo.booted in
  worker (run ext (List.repeat WorkerTurn 2) y) = Running Demo.worker_bot /\
  items (queue (run ext (List.repeat WorkerTurn 2) y))
    = skipn 2 (items (queue y)) /\
  (forall m, In m (firstn 2 (items (queue y))) ->
             In (Log INFO "get task, incoming_message=%s" [OMsg m])
                (history (run ext (List.repeat WorkerTurn 2) y))).
Proof.
  intros ext y.
  apply (worker_survives_generation_failures ext y Demo.worker_bot 2).
  - split; intros; eexists; reflexivity.
  - reflexivity.
  - vm_compute. apply le_n.
Defined.

(* ================================================================== *)
(** ** The mode flag *)



(* ================================================================== *)
(** ** Backpressure *)

Section Backpressure.

Context {W Data : Type} (ext : Externals W Data).

Lemma full_queue_blocks options y data m :
  Inv options y ->
  truthy (subprocess options) = true ->
  ingest y = Idle ->
  from_dict ext data = Returns m ->
  List.length (items (queue y)) = 128%nat ->
  fst (process ext data (view (parent y) y)) = Block /\
  ingest (sys_step ext (Callback data) y) = InPut m /\
  queue (sys_step ext (Callback data) y) = queue y /\
  acked (sys_step ext (Callback data) y) = acked y /\
  sys_step ext PutResumes (sys_step ext (Callback data) y)
    = sys_step ext (Callback data) y /\
  forall b,
    worker y = Running b ->
    ingest (sys_step ext PutResumes
              (sys_step ext WorkerTurn (sys_step ext (Callback data) y)))
      = Idle /\
    items (queue (sys_step ext PutResumes
                    (sys_step ext WorkerTurn
                       (sys_step ext (Callback data) y))))
      = tl (items (queue y)) ++ [m] /\
    acked (sys_step ext PutResumes
             (sys_step ext WorkerTurn (sys_step ext (Callback data) y)))
      = acked y ++ [(STATUS_OK, Py.lit "OK")].
Proof.
  intros [Ho Hp Hw [Hm Hl]] Hmode Hidle Hd Hlen.
  assert (Hfull : full (queue y) = true)
    by (unfold full; rewrite Hm, Hlen; reflexivity).
  assert (Hproc :
            process ext data (view (parent y) y) =
              (Block,
               {| self := parent y; task_queue := queue y;
                  world := outside y;
                  trace := history y ++
                           [Log INFO "received incoming message, message=%s"
                                [OMsg m]] |})).
  { unfold process, bind, logger, emit, get_self, put. rewrite Hd.
    cbn [res_of view self task_queue world trace fst snd].
    rewrite Ho, Hmode. cbn [task_queue]. rewrite Hfull. reflexivity. }
  assert (Hy1 :
            sys_step ext (Callback data) y =
              {| parent := parent y; ingest := InPut m; worker := worker y;
                 queue := queue y; outside := outside y;
                 history := history y ++
                            [Log INFO "received incoming message, message=%s"
                                 [OMsg m]];
                 acked := acked y;
                 others := others y |}).
  { cbn [sys_step]. unfold on_callback. rewrite Hidle, Hproc, Hd.
    reflexivity. }
  rewrite Hy1, Hproc. cbn [fst ingest queue acked].
  split; [reflexivity|]. split; [reflexivity|]. split; [reflexivity|].
  split; [reflexivity|]. split.
  - cbn [sys_step]. unfold on_put_resumes. cbn [ingest].
    unfold process_resume, bind, put.
    cbn [view task_queue queue parent]. rewrite Hfull. reflexivity.
  - intros b Hwk.
    destruct (items (queue y)) as [|h rest] eqn:Hit; [discriminate Hlen|].
    assert (Hturn :
              exists wk w2 tr2,
                sys_step ext WorkerTurn
                  {| parent := parent y; ingest := InPut m;
                     worker := worker y; queue := queue y;
                     outside := outside y;
                     history := history y ++
                                [Log INFO
                                     "received incoming message, message=%s"
                                     [OMsg m]];
                     acked := acked y;
                     others := others y |} =
                  {| parent := parent y; ingest := InPut m; worker := wk;
                     queue := {| maxsize := maxsize (queue y);
                                 items := rest |};
                     outside := w2; history := tr2; acked := acked y;
                     others := others y |}).
    { cbn [sys_step]. unfold on_worker_turn. cbn [worker]. rewrite Hwk.
      unfold worker_iteration, bind at 1, get.
      cbn [view task_queue queue items]. rewrite Hit.
      match goal with
      | |- context [process_incoming_message ext h ?s1] =>
          pose proof (respects_process_incoming_message ext same_queue
                        same_queue_emit (@same_queue_extern W) h s1)
            as Hsame;
          destruct (process_incoming_message ext h s1) as [r s2]
      end.
      unfold same_queue in Hsame. cbn [snd task_queue] in Hsame.
      rewrite Hsame. eexists _, _, _. reflexivity. }
    destruct Hturn as [wk [w2 [tr2 ->]]].
    cbn [sys_step]. unfold on_put_resumes. cbn [ingest].
    unfold process_resume, bind, put.
    cbn [view task_queue queue parent].
    assert (Hroom : full {| maxsize := maxsize (queue y); items := rest |}
                    = false).
    { unfold full. cbn [maxsize items]. rewrite Hm.
      simpl in Hlen. injection Hlen as ->. reflexivity. }
    rewrite Hroom. cbn. auto.
Qed.
End Backpressure.

(** C6. The queue is created with capacity 128 and, in every state the
    two processes reach, holds at most 128 requests.  In offload mode, a
    callback that arrives when it holds 128 is neither acknowledged nor
    refused: [process] waits inside [put], the queue is unchanged, and the
    wait lasts while the queue is full; once a running worker has taken a
    request, the [put] goes through, the message is last in the queue and
    the callback is acknowledged. *)
Theorem task_queue_bounded_and_blocking
        {W Data} (ext : Externals W Data) options w y0 schedule :
  boot ext options w = Ret y0 ->
  maxsize (queue (run ext schedule y0)) = 128 /\
  (List.length (items (queue (run ext schedule y0))) <= 128)%nat /\
  forall data m,
    truthy (subprocess options) = true ->
    ingest (run ext schedule y0) = Idle ->
    from_dict ext data = Returns m ->
    List.length (items (queue (run ext schedule y0))) = 128%nat ->
    let y := run ext schedule y0 in
    let y1 := sys_step ext (Callback data) y in
    fst (process ext data (view (parent y) y)) = Block /\
    ingest y1 = InPut m /\
    queue y1 = queue y /\
    acked y1 = acked y /\
    sys_step ext PutResumes y1 = y1 /\
    forall b,
      worker y = Running b ->
      let y2 := sys_step ext PutResumes (sys_step ext WorkerTurn y1) in
      ingest y2 = Idle /\
      items (queue y2) = tl (items (queue y)) ++ [m] /\
      acked y2 = acked y ++ [(STATUS_OK, Py.lit "OK")].
Proof.
  intros Hboot.
  pose proof (run_inv ext options schedule y0 (boot_inv ext options w y0 Hboot))
    as HI.
  pose proof HI as [_ _ _ [Hm Hl]].
  split; [exact Hm|]. split; [exact Hl|].
  intros data m Hmode Hidle Hd Hlen.
  exact (full_queue_blocks ext options _ data m HI Hmode Hidle Hd Hlen).
Qed.

Lemma task_queue_bounded_and_blocking_witness :
  let ext := Demo.env 4 Demo.uploaded in
  let y := run ext (PreStart :: List.repeat (Callback (Demo.Text "x")) 128)
               Demo.booted in
  let y1 := sys_step ext (Callback (Demo.Text "y")) y in
  let y2 := sys_step ext PutResumes (sys_step ext WorkerTurn y1) in
  maxsize (queue y) = 128 /\
  (List.length (items (queue y)) <= 128)%nat /\
  fst (process ext (Demo.Text "y") (view (parent y) y)) = Block /\
  ingest y1 = InPut (Demo.message "y") /\
  queue y1 = queue y /\
  acked y1 = acked y /\
  sys_step ext PutResumes y1 = y1 /\
  ingest y2 = Idle /\
  items (queue y2) = tl (items (queue y)) ++ [Demo.message "y"] /\
  acked y2 = acked y ++ [(STATUS_OK, Py.lit "OK")].
Proof.
  intros ext y y1 y2.
  assert (Hidle : ingest y = Idle) by (vm_compute; reflexivity).
  assert (Hlen : List.length (items (queue y)) = 128%nat)
    by (vm_compute; reflexivity).
  assert (Hwk : worker y = Running Demo.worker_bot)
    by (vm_compute; reflexivity).
  destruct (task_queue_bounded_and_blocking ext (Demo.options (Some true))
              0%nat Demo.booted
              (PreStart :: List.repeat (Callback (Demo.Text "x")) 128)
              eq_refl) as [Hm [Hl Hfull]].
  destruct (Hfull (Demo.Text "y") (Demo.message "y") eq_refl Hidle eq_refl
              Hlen) as [H1 [H2 [H3 [H4 [H5 H6]]]]].
  destruct (H6 Demo.worker_bot Hwk) as [H7 [H8 H9]].
  exact (conj Hm (conj Hl (conj H1 (conj H2 (conj H3 (conj H4 (conj H5
           (conj H7 (conj H8 H9))))))))).
Defined.

(* ================================================================== *)
(** * Further properties *)

(** ** The engine calls *)

(** X1. Both layouts warm the engine up first, with the stripped prompt;
    when the warm-up raises, the call for the images is not made:
    [txt2img] raises the same exception after that single call. *)
Theorem warm_up_failure_skips_real_call
        {W Data} (ext : Externals W Data) p m txt s e w1 :
  text m = Some {| content := Some txt |} ->
  pipe_run ext p (warm_up (Py.strip txt)) (world s) = (Raises e, w1) ->
  txt2img ext (Some p) m s =
    (Raise e,
     {| self := self s; task_queue := task_queue s; world := w1;
        trace := trace s ++ [PipeCall p (warm_up (Py.strip txt))] |}).
Proof.
  intros Ht Hwarm.
  unfold txt2img, txt2img_four, txt2img_one, stripped_text, call_pipe.
  rewrite Ht. unfold bind, get_self, ret, emit, extern. unfold warm_up in Hwarm.
  destruct (_enable_four_images (self s)); cbn [content self task_queue world trace];
    rewrite Hwarm; reflexivity.
Qed.

Lemma warm_up_failure_skips_real_call_witness :
  txt2img (Demo.env 4 Demo.uploaded) (Some Demo.pipe) (Demo.message " boom ")
          (Demo.fresh Demo.inline_bot) =
    (Raise (Error "CUDA out of memory"),
     {| self := Demo.inline_bot;
        task_queue := {| maxsize := 128; items := [] |}; world := 0%nat;
        trace := [PipeCall Demo.pipe (warm_up (Py.lit "boom"))] |}).
Proof.
  apply (warm_up_failure_skips_real_call (Demo.env 4 Demo.uploaded) Demo.pipe
           (Demo.message " boom ") (Py.lit " boom ")
           (Demo.fresh Demo.inline_bot) (Error "CUDA out of memory") 0%nat);
    reflexivity.
Defined.

(** X2. When both engine calls return, [txt2img_four] returns, whatever
    the number of images: [None], after logging the count, for fewer than
    four; the PNG of the canvas of the first four otherwise, the images
    after the fourth being ignored.  It makes exactly the two calls. *)
Theorem txt2img_four_by_count
        {W Data} (ext : Externals W Data) p m txt s warm w1 images w2 :
  text m = Some {| content := Some txt |} ->
  pipe_run ext p (warm_up (Py.strip txt)) (world s) = (Returns warm, w1) ->
  pipe_run ext p (real_call (Py.strip txt) (Some 4)) w1
    = (Returns images, w2) ->
  txt2img_four ext (Some p) m s =
    (Ret match images with
         | i0 :: i1 :: i2 :: i3 :: _ =>
             Some (save ext (img_merge i0 i1 i2 i3) PNG)
         | _ => None
         end,
     {| self := self s; task_queue := task_queue s; world := w2;
        trace := trace s
                 ++ [PipeCall p (warm_up (Py.strip txt));
                     PipeCall p (real_call (Py.strip txt) (Some 4))]
                 ++ match images with
                    | _ :: _ :: _ :: _ :: _ => []
                    | _ =>
                        [Log ERROR
                           "txt2img_four failed, not enough images, images.size=%d"
                           [OInt (Z.of_nat (List.length images))]]
                    end |}).
Proof.
  intros Ht Hwarm Hreal.
  unfold txt2img_four, stripped_text, call_pipe. rewrite Ht.
  unfold warm_up, real_call in *.
  unfold logger, bind, ret, emit, extern, index.
  cbn [content self task_queue world trace]. rewrite Hwarm.
  cbn [res_of self task_queue world trace]. rewrite Hreal.
  cbn [res_of self task_queue world trace].
  destruct images as [|i0 [|i1 [|i2 [|i3 rest]]]];
    cbn [List.length Nat.ltb Nat.leb nth_error self task_queue world trace];
    rewrite <- ?app_assoc; reflexivity.
Qed.

Lemma txt2img_four_by_count_witness :
  let ext := Demo.env 4 Demo.uploaded in
  txt2img_four ext (Some Demo.pipe) (Demo.message "a red cat")
               (Demo.fresh Demo.inline_bot) =
    (Ret (Some (save ext
                  (img_merge (Demo.tile (255, 0, 0)) (Demo.tile (0, 255, 0))
                     (Demo.tile (0, 0, 255)) (Demo.tile (9, 9, 9))) PNG)),
     {| self := Demo.inline_bot;
        task_queue := {| maxsize := 128; items := [] |}; world := 0%nat;
        trace := [] ++ [PipeCall Demo.pipe (warm_up (Py.lit "a red cat"));
                        PipeCall Demo.pipe
                          (real_call (Py.lit "a red cat") (Some 4))] ++ [] |}).
Proof.
  intros ext.
  apply (txt2img_four_by_count ext Demo.pipe (Demo.message "a red cat")
           (Py.lit "a red cat") (Demo.fresh Demo.inline_bot) Demo.tiles 0%nat
           Demo.tiles 0%nat);
    reflexivity.
Defined.

(** X3. Single-image mode: when both engine calls return,
    [txt2img_one] returns the PNG of the first image, and raises
    [IndexError] on an empty list of images. *)
Theorem txt2img_one_first_image
        {W Data} (ext : Externals W Data) p m txt s warm w1 images w2 :
  text m = Some {| content := Some txt |} ->
  pipe_run ext p (warm_up (Py.strip txt)) (world s) = (Returns warm, w1) ->
  pipe_run ext p (real_call (Py.strip txt) None) w1 = (Returns images, w2) ->
  txt2img_one ext (Some p) m s =
    (match images with
     | image :: _ => Ret (Some (save ext image PNG))
     | [] => Raise IndexError
     end,
     {| self := self s; task_queue := task_queue s; world := w2;
        trace := trace s
                 ++ [PipeCall p (warm_up (Py.strip txt));
                     PipeCall p (real_call (Py.strip txt) None)] |}).
Proof.
  intros Ht Hwarm Hreal.
  unfold txt2img_one, stripped_text, call_pipe. rewrite Ht.
  unfold warm_up, real_call in *.
  unfold bind, ret, emit, extern, index.
  cbn [content self task_queue world trace]. rewrite Hwarm.
  cbn [res_of self task_queue world trace]. rewrite Hreal.
  cbn [res_of self task_queue world trace].
  destruct images as [|image rest]; cbn [nth_error];
    rewrite <- ?app_assoc; reflexivity.
Qed.

Lemma txt2img_one_first_image_witness :
  let ext := Demo.env 0 Demo.uploaded in
  txt2img_one ext (Some Demo.pipe) (Demo.message "a red cat")
              (Demo.fresh Demo.inline_bot) =
    (Raise IndexError,
     {| self := Demo.inline_bot;
        task_queue := {| maxsize := 128; items := [] |}; world := 0%nat;
        trace := [] ++ [PipeCall Demo.pipe (warm_up (Py.lit "a red cat"));
                        PipeCall Demo.pipe
                          (real_call (Py.lit "a red cat") None)] |}).
Proof.
  intros ext.
  apply (txt2img_one_first_image ext Demo.pipe (Demo.message "a red cat")
           (Py.lit "a red cat") (Demo.fresh Demo.inline_bot) [] 0%nat
           [] 0%nat);
    reflexivity.
Defined.

(** X4. The canvas of grid mode is 1024 x 1024 whatever the engine
    returns.  With tiles no larger than 512 x 512 each tile is intact at
    its offset, and every pixel that no tile covers is black. *)
Theorem img_merge_small_tiles (i0 i1 i2 i3 : Image) :
  Forall (fun i => 0 <= width i <= 512 /\ 0 <= height i <= 512)
         [i0; i1; i2; i3] ->
  width (img_merge i0 i1 i2 i3) = 1024 /\
  height (img_merge i0 i1 i2 i3) = 1024 /\
  (forall x y, 0 <= x < width i0 -> 0 <= y < height i0 ->
     getpixel (img_merge i0 i1 i2 i3) x y = getpixel i0 x y) /\
  (forall x y, 0 <= x < width i1 -> 0 <= y < height i1 ->
     getpixel (img_merge i0 i1 i2 i3) (512 + x) y = getpixel i1 x y) /\
  (forall x y, 0 <= x < width i2 -> 0 <= y < height i2 ->
     getpixel (img_merge i0 i1 i2 i3) x (512 + y) = getpixel i2 x y) /\
  (forall x y, 0 <= x < width i3 -> 0 <= y < height i3 ->
     getpixel (img_merge i0 i1 i2 i3) (512 + x) (512 + y) = getpixel i3 x y) /\
  (forall x y,
     ~ inside i0 0 0 x y -> ~ inside i1 512 0 x y ->
     ~ inside i2 0 512 x y -> ~ inside i3 512 512 x y ->
     getpixel (img_merge i0 i1 i2 i3) x y = (0, 0, 0)).
Proof.
  intros H. rewrite !Forall_cons_iff in H.
  destruct H as ([W0 H0] & [W1 H1] & [W2 H2] & [W3 H3] & _).
  split; [reflexivity|]. split; [reflexivity|].
  unfold img_merge, PIL.paste, PIL.new, inside. cbn [getpixel width height].
  repeat split; intros x y; intros;
    decide_bounds; cbn [andb]; try reflexivity; try (f_equal; lia); lia.
Qed.

Lemma img_merge_small_tiles_witness :
  let half := {| width := 256; height := 512;
                 getpixel := fun _ _ => (7, 7, 7) |} in
  width (img_merge half half half half) = 1024 /\
  height (img_merge half half half half) = 1024 /\
  (forall x y, 0 <= x < 256 -> 0 <= y < 512 ->
     getpixel (img_merge half half half half) x y = (7, 7, 7)) /\
  (forall x y, 0 <= x < 256 -> 0 <= y < 512 ->
     getpixel (img_merge half half half half) (512 + x) y = (7, 7, 7)) /\
  (forall x y, 0 <= x < 256 -> 0 <= y < 512 ->
     getpixel (img_merge half half half half) x (512 + y) = (7, 7, 7)) /\
  (forall x y, 0 <= x < 256 -> 0 <= y < 512 ->
     getpixel (img_merge half half half half) (512 + x) (512 + y)
       = (7, 7, 7)) /\
  (forall x y,
     ~ inside half 0 0 x y -> ~ inside half 512 0 x y ->
     ~ inside half 0 512 x y -> ~ inside half 512 512 x y ->
     getpixel (img_merge half half half half) x y = (0, 0, 0)).
Proof.
  intros half.
  apply (img_merge_small_tiles half half half half).
  repeat constructor; simpl; lia.
Defined.

Lemma lstrip_blank (s : Py.str) :
  forallb Py.isspace s = true -> Py.lstrip s = [].
Proof.
  induction s as [|c s IH]; simpl; [reflexivity|].
  destruct (Py.isspace c); simpl; [exact IH | discriminate].
Qed.

(** X5. A text of white space only, or an empty text, is not refused: it
    strips to the empty string, and the engine is called with the empty
    prompt. *)
Theorem blank_prompt_reaches_engine
        {W Data} (ext : Externals W Data) p m txt s :
  text m = Some {| content := Some txt |} ->
  forallb Py.isspace txt = true ->
  Py.strip txt = [] /\
  exists evs,
    trace (snd (txt2img ext (Some p) m s))
      = trace s ++ PipeCall p (warm_up []) :: evs.
Proof.
  intros Ht Hblank.
  assert (Hs : Py.strip txt = [])
    by (unfold Py.strip; rewrite (lstrip_blank txt Hblank); reflexivity).
  split; [exact Hs|].
  unfold txt2img, txt2img_four, txt2img_one, stripped_text, call_pipe.
  rewrite Ht. cbn [content]. rewrite Hs.
  unfold bind at 1. unfold get_self at 1. cbv beta iota.
  assert (Hrest : forall (k : list Image -> M W (option bytes)),
             (forall l, respects grows (k l)) ->
             exists evs,
               trace (snd ((prompt <- ret [] ;;
                            call_pipe ext (Some p) (warm_up prompt) ;;
                            images <- call_pipe ext (Some p)
                                        (real_call prompt
                                           (if _enable_four_images (self s)
                                            then Some 4 else None)) ;;
                            k images) s))
               = trace s ++ PipeCall p (warm_up []) :: evs).
  { intros k Hk. unfold bind at 1. unfold ret at 1. cbv beta iota.
    unfold bind at 1. unfold call_pipe at 1.
    unfold bind at 1. unfold emit at 1. cbv beta iota.
    match goal with
    | |- context [extern ?f ?s1] =>
        pose proof (grows_extern f s1) as [ev1 He1];
        destruct (extern f s1) as [[l|e|] s2]
    end; cbn [snd] in *.
    - match goal with
      | |- context [snd (?c s2)] =>
          assert (Hg : respects grows c) by
            (apply respects_bind;
             [typeclasses eauto
             | unfold call_pipe; apply respects_bind;
               [typeclasses eauto | auto with py | intros; auto with py]
             | exact Hk]);
          destruct (Hg s2) as [ev2 He2]
      end.
      exists (ev1 ++ ev2). rewrite He2, He1. cbn [trace].
      rewrite <- !app_assoc. reflexivity.
    - exists ev1. rewrite He1. cbn [trace]. rewrite <- app_assoc. reflexivity.
    - exists ev1. rewrite He1. cbn [trace]. rewrite <- app_assoc. reflexivity. }
  destruct (_enable_four_images (self s)) eqn:Hflag.
  - apply (Hrest (fun images =>
             if (List.length images <? 4)%nat then
               logger ERROR
                 "txt2img_four failed, not enough images, images.size=%d"
                 [OInt (Z.of_nat (List.length images))] ;;
               ret None
             else
               i0 <- index images 0 ;;
               i1 <- index images 1 ;;
               i2 <- index images 2 ;;
               i3 <- index images 3 ;;
               ret (Some (save ext (img_merge i0 i1 i2 i3) PNG)))).
    intros l. respects_all.
  - apply (Hrest (fun images =>
             image <- index images 0 ;;
             ret (Some (save ext image PNG)))).
    intros l. respects_all.
Qed.

Lemma blank_prompt_reaches_engine_witness :
  let ext := Demo.env 4 Demo.uploaded in
  Py.strip (Py.lit "   ") = [] /\
  exists evs,
    trace (snd (txt2img ext (Some Demo.pipe) (Demo.message "   ")
                  (Demo.fresh Demo.inline_bot)))
      = [] ++ PipeCall Demo.pipe (warm_up []) :: evs.
Proof.
  intros ext.
  apply (blank_prompt_reaches_engine ext Demo.pipe (Demo.message "   ")
           (Py.lit "   ") (Demo.fresh Demo.inline_bot));
    reflexivity.
Defined.

(* ================================================================== *)
(** ** One task *)

(** [process_incoming_message], by the way its [try] block ends. *)
Lemma process_incoming_message_unfold
      {W Data} (ext : Externals W Data) m s :
  process_incoming_message ext m s =
    match try_block ext (_pipe (self s)) m
            (snd (logger INFO "get task, incoming_message=%s" [OMsg m] s))
    with
    | (Ret (Some (image_content, elapse)), s2) =>
        process_complete ext
          (Some {| image := image_content; incoming_message := m;
                   elapse_seconds := elapse |}) s2
    | (Ret None, s2) => (Ret tt, s2)
    | (Raise e, s2) =>
        (Ret tt,
         {| self := self s2; task_queue := task_queue s2; world := world s2;
            trace := trace s2 ++
                     [Log ERROR "do sd process failed, error=%s" [OExn e]] |})
    | (Block, s2) => (Block, s2)
    end.
Proof.
  unfold process_incoming_message, try_block.
  unfold bind at 1. unfold logger, emit. cbv beta iota. cbn [snd].
  unfold bind at 1. unfold get_self at 1. cbv beta iota. cbn [self].
  unfold bind at 1. unfold try_except.
  match goal with
  | |- context [match ?c ?s1 with _ => _ end] =>
      destruct (c s1) as [[[[img el]|]|e|] s2]
  end; reflexivity.
Qed.

(** The [try] block sends nothing, leaves bot and queue alone, never
    waits, and returns a pair. *)
Lemma try_block_spec {W Data} (ext : Externals W Data) pipe m s :
  quiet s (snd (try_block ext pipe m s)) /\
  self (snd (try_block ext pipe m s)) = self s /\
  task_queue (snd (try_block ext pipe m s)) = task_queue s /\
  fst (try_block ext pipe m s) <> Block /\
  fst (try_block ext pipe m s) <> Ret None.
Proof.
  assert (Hq : respects quiet (try_block ext pipe m))
    by (unfold try_block; respects_all).
  assert (Hs : respects same_self (try_block ext pipe m))
    by (unfold try_block; respects_all).
  assert (Hqu : respects same_queue (try_block ext pipe m))
    by (unfold try_block; respects_all).
  split; [apply Hq|]. split; [apply Hs|]. split; [apply Hqu|].
  split; [apply (total_try_block ext pipe m s)|].
  intros H. destruct (try_block ext pipe m s) as [r s'] eqn:Hr.
  simpl in H. subst r.
  destruct (try_block_inv ext pipe m s None s' Hr) as [[img [el Habs]] _].
  discriminate.
Qed.

(** [reply_image], by the way the upload and the post end. *)
Lemma reply_image_unfold {W Data} (ext : Externals W Data)
      img x m txt s :
  text m = Some {| content := Some txt |} ->
  reply_image ext img x m s =
    let title := Py.lit "Stable Diffusion txt2img" in
    match upload_to_dingtalk ext img (world s) with
    | (Raises e, w1) =>
        (Raise e,
         {| self := self s; task_queue := task_queue s; world := w1;
            trace := trace s ++ [Upload img] |})
    | (Returns media, w1) =>
        let body := reply_content (Py.strip txt) (str_of_value media)
                      (Py.repr_thousandths (Py.round3 x)) in
        (res_of (fst (reply_markdown ext title body m w1)),
         {| self := self s; task_queue := task_queue s;
            world := snd (reply_markdown ext title body m w1);
            trace := trace s ++
                     [Upload img; Log INFO "media_id=%s" [OValue media];
                      ReplyMarkdown title body m] |})
    end.
Proof.
  intros Ht. unfold reply_image, stripped_text. rewrite Ht.
  unfold logger, bind, emit, extern, ret.
  cbn [content self task_queue world trace].
  destruct (upload_to_dingtalk ext img (world s)) as [[media|e] w1];
    cbn [res_of self task_queue world trace]; [|reflexivity].
  destruct (reply_markdown ext _ _ m w1) as [o w2].
  cbn [fst snd]. rewrite <- !app_assoc. reflexivity.
Qed.

(** X6. A message without text is dropped before the engine is called:
    reading the prompt raises [AttributeError] inside the [try] block, the
    error is logged after the task, and nothing else happens but the first
    clock read. *)
Theorem missing_text_is_logged_and_dropped
        {W Data} (ext : Externals W Data) m s :
  text m = None \/ text m = Some {| content := None |} ->
  process_incoming_message ext m s =
    (Ret tt,
     {| self := self s; task_queue := task_queue s;
        world := snd (time_time ext (world s));
        trace := trace s ++
                 [Log INFO "get task, incoming_message=%s" [OMsg m];
                  Log ERROR "do sd process failed, error=%s"
                      [OExn AttributeError]] |}).
Proof.
  intros Ht.
  rewrite process_incoming_message_unfold.
  unfold try_block, txt2img, txt2img_four, txt2img_one, stripped_text.
  unfold now, logger, bind, emit, extern, get_self, raise.
  cbn [snd self task_queue world trace].
  destruct (time_time ext (world s)) as [t0 w0].
  cbn [res_of snd self task_queue world trace].
  destruct Ht as [-> | ->]; cbn [content];
    destruct (_enable_four_images (self s));
    cbn [self task_queue world trace]; rewrite <- app_assoc; reflexivity.
Qed.

Lemma missing_text_is_logged_and_dropped_witness :
  let ext := Demo.env 4 Demo.uploaded in
  let m := {| conversation_id := Py.lit "cid42"; sender_id := Py.lit "alice";
              text := None |} in
  process_incoming_message ext m (Demo.fresh Demo.inline_bot) =
    (Ret tt,
     {| self := Demo.inline_bot;
        task_queue := {| maxsize := 128; items := [] |};
        world := 1%nat;
        trace := [] ++
                 [Log INFO "get task, incoming_message=%s" [OMsg m];
                  Log ERROR "do sd process failed, error=%s"
                      [OExn AttributeError]] |}).
Proof.
  intros ext m.
  apply (missing_text_is_logged_and_dropped ext m
           (Demo.fresh Demo.inline_bot)).
  left. reflexivity.
Defined.

Lemma count_app (f : Event -> bool) (l1 l2 : list Event) :
  count f (l1 ++ l2) = (count f l1 + count f l2)%nat.
Proof. unfold count. rewrite filter_app, length_app. reflexivity. Qed.

Lemma silent_counts (evs : list Event) :
  silent evs = true -> count is_upload evs = 0%nat /\ count is_reply evs = 0%nat.
Proof.
  unfold silent, count. induction evs as [|e evs IH]; simpl; [auto|].
  intros H. apply andb_prop in H as [He H]. destruct (IH H) as [IH1 IH2].
  destruct e; simpl in *; try discriminate; auto.
Qed.

(** X7. The only exceptions that leave [process_incoming_message] are
    those that [upload_to_dingtalk] or [reply_markdown] raised: whatever
    the engine and the message do is caught. *)
Theorem only_delivery_exceptions_escape
        {W Data} (ext : Externals W Data) m s e :
  fst (process_incoming_message ext m s) = Raise e ->
  (exists img w, fst (upload_to_dingtalk ext img w) = Raises e) \/
  (exists title body w, fst (reply_markdown ext title body m w) = Raises e).
Proof.
  rewrite process_incoming_message_unfold.
  destruct (try_block ext (_pipe (self s)) m
              (snd (logger INFO "get task, incoming_message=%s" [OMsg m] s)))
    as [[[[img el]|]|e0|] s2] eqn:Htry; cbn [fst]; try discriminate.
  destruct (try_block_inv ext _ m _ _ s2 Htry) as [_ [txt Ht]].
  unfold process_complete, bind at 1. cbn [image elapse_seconds incoming_message].
  rewrite (reply_image_unfold ext img el m txt s2 Ht). cbv zeta.
  destruct (upload_to_dingtalk ext img (world s2)) as [[media|e1] w1] eqn:Hup.
  - match goal with
    | |- context [reply_markdown ext ?t ?b m w1] =>
        destruct (reply_markdown ext t b m w1) as [[v|e2] w2] eqn:Hrep
    end; cbn [fst snd res_of].
    + discriminate.
    + intros H. injection H as ->. right.
      eexists _, _, w1. rewrite Hrep. reflexivity.
  - cbn [fst]. intros H. injection H as ->. left.
    exists img, (world s2). rewrite Hup. reflexivity.
Qed.

Lemma only_delivery_exceptions_escape_witness :
  let ext := Demo.env 4 Demo.upload_fails in
  (exists img w,
      fst (upload_to_dingtalk ext img w) = Raises (Error "upload failed")) \/
  (exists title body w,
      fst (reply_markdown ext title body (Demo.message "a red cat") w)
        = Raises (Error "upload failed")).
Proof.
  intros ext.
  apply (only_delivery_exceptions_escape ext (Demo.message "a red cat")
           (Demo.fresh Demo.inline_bot) (Error "upload failed")).
  reflexivity.
Defined.

(** X8. One task leads to at most one upload and at most one reply, and
    to a reply only after an upload: [process_incoming_message] adds to
    the trace at most one of each, whatever the collaborators do. *)
Theorem at_most_one_reply_per_task {W Data} (ext : Externals W Data) m s :
  exists evs,
    trace (snd (process_incoming_message ext m s)) = trace s ++ evs /\
    (count is_upload evs <= 1)%nat /\
    (count is_reply evs <= count is_upload evs)%nat.
Proof.
  rewrite process_incoming_message_unfold.
  destruct (try_block_spec ext (_pipe (self s)) m
              (snd (logger INFO "get task, incoming_message=%s" [OMsg m] s)))
    as [[evq [Hevq Hquiet]] [_ [_ [Hnb Hnn]]]].
  destruct (silent_counts evq Hquiet) as [Hu Hr].
  destruct (try_block ext (_pipe (self s)) m
              (snd (logger INFO "get task, incoming_message=%s" [OMsg m] s)))
    as [[[[img el]|]|e0|] s2] eqn:Htry; cbn [fst snd] in *;
    try congruence;
    unfold logger, emit in Hevq; cbn [snd trace] in Hevq.
  - destruct (try_block_inv ext _ m _ _ s2 Htry) as [_ [txt Ht]].
    unfold process_complete, bind at 1, logger, emit.
    cbn [image elapse_seconds incoming_message].
    rewrite (reply_image_unfold ext img el m txt s2 Ht). cbv zeta.
    destruct (upload_to_dingtalk ext img (world s2)) as [[media|e1] w1].
    + match goal with
      | |- context [reply_markdown ext ?t ?b m w1] =>
          destruct (reply_markdown ext t b m w1) as [[v|e2] w2]
      end; cbn [fst snd res_of trace]; rewrite Hevq, <- !app_assoc;
        eexists; (split; [reflexivity|]);
        rewrite !count_app, Hu, Hr; cbn; lia.
    + cbn [snd trace]. rewrite Hevq, <- !app_assoc.
      eexists; (split; [reflexivity|]).
      rewrite !count_app, Hu, Hr; cbn; lia.
  - cbn [trace]. rewrite Hevq, <- !app_assoc.
    eexists; (split; [reflexivity|]).
    rewrite !count_app, Hu, Hr; cbn; lia.
Qed.

(** X9. A task whose generation returns and whose upload returns is
    answered by one reply: after the task record and the silent generation
    come the upload of the image, the record of the media id and the reply,
    whose body carries the stripped prompt, the media id and the time
    between the two clock reads around [txt2img], which leaves delivery
    out of the cost.  This is for two reads whose difference is a float
    (as it is when they are within a factor two of each other), so that the
    subtraction is exact, and is not negative and below [10^12] seconds. *)
Theorem completed_task_reply
        {W Data} (ext : Externals W Data) m txt s t0 w0 img s2 t1 w3
        media w4 :
  text m = Some {| content := Some txt |} ->
  time_time ext (world s) = (t0, w0) ->
  txt2img ext (_pipe (self s)) m
    {| self := self s; task_queue := task_queue s; world := w0;
       trace := trace s ++
                [Log INFO "get task, incoming_message=%s" [OMsg m]] |}
    = (Ret img, s2) ->
  time_time ext (world s2) = (t1, w3) ->
  upload_to_dingtalk ext img w3 = (Returns media, w4) ->
  is_double t0 -> is_double t1 -> is_double (t1 - t0)%Q ->
  (0 <= t1 - t0)%Q -> (t1 - t0 < 1000000000000)%Q ->
  exists evs tail,
    trace (snd (process_incoming_message ext m s)) =
      trace s
      ++ Log INFO "get task, incoming_message=%s" [OMsg m] :: evs
      ++ [Upload img;
          Log INFO "media_id=%s" [OValue media];
          ReplyMarkdown (Py.lit "Stable Diffusion txt2img")
            (reply_content (Py.strip txt) (str_of_value media)
               (Py.repr_thousandths (Py.round3 (t1 - t0)%Q))) m]
      ++ tail /\
    silent evs = true /\
    count is_upload tail = 0%nat /\ count is_reply tail = 0%nat.
Proof.
  intros Ht Ht0 Hgen Ht1 Hup _ _ _ _ _.
  destruct (quiet_txt2img ext (_pipe (self s)) m
              {| self := self s; task_queue := task_queue s; world := w0;
                 trace := trace s ++
                          [Log INFO "get task, incoming_message=%s"
                               [OMsg m]] |}) as [evs [Hevs Hq]].
  rewrite Hgen in Hevs. cbn [snd trace] in Hevs.
  rewrite process_incoming_message_unfold.
  unfold try_block, now, logger, bind at 1, extern at 1, emit.
  cbn [snd self task_queue world trace]. rewrite Ht0.
  cbn [res_of]. unfold bind at 1. rewrite Hgen.
  unfold bind at 1, extern at 1. rewrite Ht1. cbn [res_of]. unfold ret at 1.
  unfold process_complete, bind at 1.
  cbn [image elapse_seconds incoming_message self task_queue world trace].
  rewrite (reply_image_unfold ext img _ m txt _ Ht). cbv zeta.
  cbn [self task_queue world trace]. rewrite Hup.
  match goal with
  | |- context [reply_markdown ext ?t ?b m w4] =>
      destruct (reply_markdown ext t b m w4) as [[v|e2] w5]
  end; unfold logger, emit; cbn [fst snd res_of trace];
    rewrite Hevs, <- !app_assoc.
  - exists evs, [Log INFO "reply image, response=%s" [OValue v]].
    split; [reflexivity|]. split; [exact Hq|]. split; reflexivity.
  - exists evs, []. rewrite app_nil_r.
    split; [reflexivity|]. split; [exact Hq|]. split; reflexivity.
Qed.

Lemma completed_task_reply_witness :
  let ext := Demo.env 4 Demo.uploaded in
  let m := Demo.message " a red cat " in
  let s := Demo.fresh Demo.inline_bot in
  exists evs tail,
    trace (snd (process_incoming_message ext m s)) =
      trace s
      ++ Log INFO "get task, incoming_message=%s" [OMsg m] :: evs
      ++ [Upload (Some [x89; x50; x4e; x47]);
          Log INFO "media_id=%s" [OValue (VStr (Py.lit "@media123"))];
          ReplyMarkdown (Py.lit "Stable Diffusion txt2img")
            (reply_content (Py.strip (Py.lit " a red cat "))
               (str_of_value (VStr (Py.lit "@media123")))
               (Py.repr_thousandths (Py.round3 ((3 # 2) - (0 # 2))%Q))) m]
      ++ tail /\
    silent evs = true /\
    count is_upload tail = 0%nat /\ count is_reply tail = 0%nat.
Proof.
  intros ext m s.
  eapply (completed_task_reply ext m (Py.lit " a red cat ") s (0 # 2) 1%nat
            (Some [x89; x50; x4e; x47]) _ (3 # 2) 2%nat
            (VStr (Py.lit "@media123")) 2%nat);
    try reflexivity.
  - exists 0, 0. split; [reflexivity|]. split; [lia|reflexivity].
  - exists 3, (-1). split; [reflexivity|]. split; [lia|reflexivity].
  - exists 3, (-1). split; [reflexivity|]. split; [lia|reflexivity].
  - discriminate.
Defined.

(* ================================================================== *)
(** ** Callbacks *)

Lemma total_process_incoming_message
      {W Data} (ext : Externals W Data) m :
  total (process_incoming_message ext m).
Proof. unfold_bot. repeat total_step. Qed.

(** [process] in offload mode, by the state of the queue. *)
Lemma process_offload_unfold
        {W Data} (ext : Externals W Data) data m s :
  truthy (subprocess (_options (self s))) = true ->
  from_dict ext data = Returns m ->
  process ext data s =
    if full (task_queue s)
    then (Block,
          {| self := self s; task_queue := task_queue s; world := world s;
             trace := trace s ++
                      [Log INFO "received incoming message, message=%s"
                           [OMsg m]] |})
    else (Ret (STATUS_OK, Py.lit "OK"),
          {| self := self s;
             task_queue := {| maxsize := maxsize (task_queue s);
                              items := items (task_queue s) ++ [m] |};
             world := world s;
             trace := trace s ++
                      [Log INFO "received incoming message, message=%s"
                           [OMsg m]] |}).
Proof.
  intros Hmode Hd.
  unfold process, logger, bind, emit, get_self, put, ret. rewrite Hd.
  cbn [res_of self task_queue world trace]. rewrite Hmode.
  cbn [self task_queue world trace].
  destruct (full (task_queue s)); reflexivity.
Qed.

(** X10. In offload mode [process] does not generate: it logs the
    message and puts it last in the queue, touching nothing outside the
    program, and acknowledges; on a full queue it waits in [put] after the
    log. *)
Theorem process_offload_enqueues
        {W Data} (ext : Externals W Data) data m s :
  truthy (subprocess (_options (self s))) = true ->
  from_dict ext data = Returns m ->
  process ext data s =
    if full (task_queue s)
    then (Block,
          {| self := self s; task_queue := task_queue s; world := world s;
             trace := trace s ++
                      [Log INFO "received incoming message, message=%s"
                           [OMsg m]] |})
    else (Ret (STATUS_OK, Py.lit "OK"),
          {| self := self s;
             task_queue := {| maxsize := maxsize (task_queue s);
                              items := items (task_queue s) ++ [m] |};
             world := world s;
             trace := trace s ++
                      [Log INFO "received incoming message, message=%s"
                           [OMsg m]] |}).
Proof.
  intros Hmode Hd. exact (process_offload_unfold ext data m s Hmode Hd).
Qed.

Lemma process_offload_enqueues_witness :
  process (Demo.env 4 Demo.uploaded) (Demo.Text "a red cat")
          (Demo.queued Demo.offload_bot [Demo.message "first"]) =
    (Ret (STATUS_OK, Py.lit "OK"),
     {| self := Demo.offload_bot;
        task_queue := {| maxsize := 128;
                         items := [Demo.message "first"]
                                  ++ [Demo.message "a red cat"] |};
        world := 0%nat;
        trace := [] ++
                 [Log INFO "received incoming message, message=%s"
                      [OMsg (Demo.message "a red cat")]] |}).
Proof.
  apply (process_offload_enqueues (Demo.env 4 Demo.uploaded)
           (Demo.Text "a red cat") (Demo.message "a red cat")
           (Demo.queued Demo.offload_bot [Demo.message "first"]));
    reflexivity.
Defined.

(** [process] in inline mode, by the way the task ends. *)
Lemma process_inline_unfold {W Data} (ext : Externals W Data) data s :
  truthy (subprocess (_options (self s))) = false ->
  process ext data s =
    match from_dict ext data with
    | Raises e => (Raise e, s)
    | Returns m =>
        match process_incoming_message ext m
                (snd (logger INFO "received incoming message, message=%s"
                             [OMsg m] s))
        with
        | (Ret _, s2) => (Ret (STATUS_OK, Py.lit "OK"), s2)
        | (Raise e, s2) => (Raise e, s2)
        | (Block, s2) => (Block, s2)
        end
    end.
Proof.
  intros Hmode. unfold process.
  unfold bind at 1. destruct (from_dict ext data) as [m|e];
    cbn [res_of]; [|reflexivity].
  unfold bind at 1. unfold logger, emit. cbv beta iota. cbn [snd].
  unfold bind at 1. unfold get_self at 1. cbv beta iota. cbn [self].
  rewrite Hmode. unfold bind at 1.
  match goal with
  | |- context [process_incoming_message ext m ?s1] =>
      destruct (process_incoming_message ext m s1) as [[[]|e|] s2]
  end; reflexivity.
Qed.

(** In inline mode [process] neither waits nor touches the queue. *)
Lemma process_inline {W Data} (ext : Externals W Data) data s :
  truthy (subprocess (_options (self s))) = false ->
  fst (process ext data s) <> Block /\
  task_queue (snd (process ext data s)) = task_queue s.
Proof.
  intros Hmode. rewrite (process_inline_unfold ext data s Hmode).
  destruct (from_dict ext data) as [m|e]; [|split; [discriminate|reflexivity]].
  match goal with
  | |- context [process_incoming_message ext m ?s1] =>
      pose proof (total_process_incoming_message ext m s1) as Ht;
      pose proof (respects_process_incoming_message ext same_queue
                    same_queue_emit (@same_queue_extern W) m s1) as Hq;
      destruct (process_incoming_message ext m s1) as [[[]|e|] s2]
  end; unfold same_queue, logger, emit in Hq; cbn [fst snd task_queue] in *.
  - split; [discriminate | exact Hq].
  - split; [discriminate | exact Hq].
  - congruence.
Qed.

(** [do_sd_process] up to its loop, by the way loading the pipeline
    ends. *)
Lemma do_sd_process_setup_unfold {W Data} (ext : Externals W Data) s :
  do_sd_process_setup ext s =
    let p := {| model := "runwayml/stable-diffusion-v1-5";
                torch_dtype := if _is_darwin (self s) then None
                               else Some float16;
                pipe_device := device (_options (self s));
                attention_slicing := _is_darwin (self s) |} in
    let tr := trace s ++ [Log INFO "do sd process ..." []] in
    match load_pipe ext p (world s) with
    | (Returns _, w) =>
        (Ret tt,
         {| self := {| _is_darwin := _is_darwin (self s);
                       _is_google_colab := _is_google_colab (self s);
                       _options := _options (self s);
                       _pipe := Some p;
                       _enable_four_images := _enable_four_images (self s) |};
            task_queue := task_queue s; world := w; trace := tr |})
    | (Raises e, w) =>
        (Raise e,
         {| self := self s; task_queue := task_queue s; world := w;
            trace := tr |})
    end.
Proof.
  unfold do_sd_process_setup, create_pipe, create_pipe_for, logger, bind,
    emit, extern, get_self, set_self, ret.
  cbn [self task_queue world trace].
  destruct (load_pipe ext _ (world s)) as [[[]|e] w]; reflexivity.
Qed.

(* ================================================================== *)
(** ** Where the pipelines are *)

Section Placement.

Context {W Data : Type} (ext : Externals W Data).

Lemma boot_placed options w y0 :
  boot ext options w = Ret y0 -> Placed ext options y0.
Proof.
  unfold boot, __init__, create_pipe_for, bind, extern, ret.
  destruct (truthy (subprocess options)) eqn:Hmode; cbn [negb].
  - intros H. injection H as <-.
    split; cbn [parent worker queue ingest items self task_queue others
                _is_darwin _options _pipe];
      rewrite ?Hmode; try reflexivity; discriminate.
  - cbn [world self task_queue trace].
    destruct (load_pipe ext _ w) as [[[]|e] w']; cbn [res_of];
      intros H; [|discriminate].
    injection H as <-.
    split; cbn [parent worker queue ingest items self task_queue others
                _is_darwin _options _pipe];
      rewrite ?Hmode; try reflexivity; try discriminate.
    intros _. auto.
Qed.

Lemma step_placed options a y :
  Placed ext options y -> Placed ext options (sys_step ext a y).
Proof.
  intros HP. pose proof HP as [Hd Ho Hpp Hw Hin Hoth].
  destruct a as [data| | | |i]; cbn [sys_step].
  - (* a callback *)
    unfold on_callback. destruct (ingest y) eqn:Hing; [|exact HP].
    pose proof (same_self_process ext data (view (parent y) y)) as Hs.
    unfold same_self in Hs. cbn [view self] in Hs.
    destruct (truthy (subprocess options)) eqn:Hmode.
    + destruct (process ext data (view (parent y) y)) as [r s].
      cbn [snd] in Hs.
      split; cbn [parent worker queue ingest others]; rewrite ?Hs, ?Hmode;
        try assumption; discriminate.
    + destruct (process_inline ext data (view (parent y) y)) as [Hnb Hq];
        [cbn [view self]; rewrite Ho; exact Hmode|].
      destruct (Hin eq_refl) as [Hwk [Hit Hidle]].
      destruct (process ext data (view (parent y) y)) as [r s].
      cbn [fst snd view task_queue] in *.
      split; cbn [parent worker queue ingest others]; rewrite ?Hs, ?Hmode;
        try assumption.
      intros _. rewrite Hq. split; [exact Hwk|]. split; [exact Hit|].
      destruct r; try reflexivity. congruence.
  - (* the pending put goes on *)
    unfold on_put_resumes. destruct (ingest y) as [|m] eqn:Hing; [exact HP|].
    pose proof (same_self_process_resume (W := W) m (view (parent y) y)) as Hs.
    unfold same_self in Hs. cbn [view self] in Hs.
    destruct (process_resume m (view (parent y) y)) as [[a|e|] s];
      [|exact HP|exact HP].
    cbn [snd] in Hs.
    split; cbn [parent worker queue ingest others]; rewrite ?Hs;
      try assumption.
    intros Hmode. destruct (Hin Hmode) as [_ [_ Habs]]. congruence.
  - (* a worker is forked *)
    unfold on_pre_start. rewrite Ho.
    destruct (truthy (subprocess options)) eqn:Hmode;
      [|destruct (worker y); exact HP].
    destruct (worker y) eqn:Hwk;
      unfold bind at 1; unfold logger at 1, emit at 1; cbv beta iota;
      rewrite do_sd_process_setup_unfold; cbv zeta;
      cbn [view self task_queue world trace]; rewrite Hd, Ho;
      destruct (load_pipe ext _ (outside y)) as [[[]|e1] w'];
      split; cbn [parent worker queue ingest self others]; rewrite ?Hmode;
      try assumption; try discriminate.
    intros b Hb. injection Hb as <-. reflexivity.
  - (* a turn of the first worker *)
    unfold on_worker_turn.
    destruct (worker y) as [|b|e] eqn:Hwk; [exact HP| |exact HP].
    pose proof (same_self_worker_iteration ext (view b y)) as Hs.
    unfold same_self in Hs. cbn [view self] in Hs.
    destruct (worker_iteration ext (view b y)) as [r s]. cbn [snd] in Hs.
    split; cbn [parent worker queue ingest others]; try assumption.
    + intros b' Hb'. destruct r; try discriminate; injection Hb' as <-;
        rewrite Hs; apply Hw; reflexivity.
    + intros Hmode. destruct (Hin Hmode) as [Habs _]. discriminate.
  - (* a turn of a later worker *)
    unfold on_other_turn.
    destruct (truthy (subprocess options)) eqn:Hmode.
    + destruct (nth_error (others y) i) as [[|b|e]|]; try exact HP.
      destruct (worker_iteration ext (view b y)) as [r s].
      split; cbn [parent worker queue ingest others]; rewrite ?Hmode;
        try assumption; discriminate.
    + rewrite (Hoth eq_refl). destruct i; exact HP.
Qed.

Lemma run_placed options schedule y :
  Placed ext options y -> Placed ext options (run ext schedule y).
Proof.
  revert y. induction schedule as [|a l IH]; intros y H; simpl.
  - exact H.
  - apply IH. apply step_placed. exact H.
Qed.

End Placement.



(** X12. Inline mode uses neither the worker nor the queue: whatever
    callbacks arrive and whatever else is scheduled, no worker is started,
    the queue stays empty and no callback is left waiting in [put]. *)
Theorem inline_mode_never_queues
        {W Data} (ext : Externals W Data) options w y0 schedule :
  boot ext options w = Ret y0 ->
  truthy (subprocess options) = false ->
  worker (run ext schedule y0) = NotStarted /\
  items (queue (run ext schedule y0)) = [] /\
  ingest (run ext schedule y0) = Idle.
Proof.
  intros Hboot Hmode.
  destruct (run_placed ext options schedule y0
              (boot_placed ext options w y0 Hboot)) as [_ _ _ _ Hin _].
  exact (Hin Hmode).
Qed.

Lemma inline_mode_never_queues_witness :
  let ext := Demo.env 4 Demo.uploaded in
  let y0 := {| parent := Demo.inline_bot; ingest := Idle;
               worker := NotStarted;
               queue := {| maxsize := 128; items := [] |};
               outside := 0%nat; history := []; acked := [];
                  others := [] |} in
  let y := run ext [PreStart; Callback (Demo.Text "a red cat"); WorkerTurn;
                    Callback (Demo.Text "boom"); PutResumes] y0 in
  worker y = NotStarted /\ items (queue y) = [] /\ ingest y = Idle.
Proof.
  intros ext y0 y.
  apply (inline_mode_never_queues ext (Demo.options None) 0%nat y0
           [PreStart; Callback (Demo.Text "a red cat"); WorkerTurn;
            Callback (Demo.Text "boom"); PutResumes]);
    reflexivity.
Defined.

(* ================================================================== *)
(** ** From receipt to task *)

#[local] Instance plainly_preorder {W} : PreOrder (@plainly W).
Proof.
  split.
  - intros s. exists []. rewrite app_nil_r. split; reflexivity.
  - intros a b c [e1 [H1 Q1]] [e2 [H2 Q2]]. exists (e1 ++ e2).
    rewrite H2, H1, app_assoc, forallb_app, Q1, Q2. split; reflexivity.
Qed.

Lemma plainly_emit {W} (e : Event) :
  plain e = true -> respects plainly (@emit W e).
Proof.
  intros He s. exists [e]. simpl. rewrite He. split; reflexivity.
Qed.

Lemma plainly_extern {W A} (f : W -> Outcome A * W) :
  respects plainly (extern f).
Proof.
  intros s. unfold extern. destruct (f (world s)). simpl.
  exists []. rewrite app_nil_r. split; reflexivity.
Qed.

#[local] Hint Resolve plainly_extern : py.

Ltac plainly_all :=
  unfold_bot; repeat first [ apply plainly_emit; reflexivity | respects_step ].

Lemma pick_app {A B} (f : A -> option B) (l1 l2 : list A) :
  pick f (l1 ++ l2) = pick f l1 ++ pick f l2.
Proof. unfold pick. apply flat_map_app. Qed.

Lemma plain_picks (evs : list Event) :
  forallb plain evs = true -> received evs = [] /\ taken evs = [].
Proof.
  unfold received, taken, pick.
  induction evs as [|e evs IH]; simpl; [auto|].
  intros H. apply andb_prop in H as [He H]. destruct (IH H) as [IH1 IH2].
  unfold plain in He.
  destruct (received_msg e), (task_msg e); try discriminate.
  simpl. auto.
Qed.

Lemma received_plain (h evs : list Event) :
  forallb plain evs = true -> received (h ++ evs) = received h.
Proof.
  intros H. unfold received. rewrite pick_app.
  destruct (plain_picks evs H) as [Hr _]. unfold received in Hr.
  rewrite Hr, app_nil_r. reflexivity.
Qed.

Lemma taken_plain (h evs : list Event) :
  forallb plain evs = true -> taken (h ++ evs) = taken h.
Proof.
  intros H. unfold taken. rewrite pick_app.
  destruct (plain_picks evs H) as [_ Ht]. unfold taken in Ht.
  rewrite Ht, app_nil_r. reflexivity.
Qed.

(** A task is logged once, first. *)
Lemma process_incoming_message_task
      {W Data} (ext : Externals W Data) m s :
  exists evs,
    trace (snd (process_incoming_message ext m s)) =
      trace s ++ Log INFO "get task, incoming_message=%s" [OMsg m] :: evs /\
    forallb plain evs = true.
Proof.
  unfold process_incoming_message.
  unfold bind at 1. unfold logger at 1, emit at 1. cbv beta iota.
  match goal with
  | |- context [snd (?c ?s1)] =>
      assert (Hg : respects plainly c) by plainly_all;
      destruct (Hg s1) as [evs [He Hp]]
  end.
  exists evs. rewrite He. cbn [trace]. rewrite <- app_assoc.
  split; [reflexivity | exact Hp].
Qed.

Lemma received_task (h evs : list Event) (m : ChatbotMessage) :
  forallb plain evs = true ->
  received (h ++ Log INFO "get task, incoming_message=%s" [OMsg m] :: evs)
    = received h /\
  taken (h ++ Log INFO "get task, incoming_message=%s" [OMsg m] :: evs)
    = taken h ++ [m].
Proof.
  intros H. destruct (plain_picks evs H) as [Hr Ht].
  unfold received, taken in *. rewrite !pick_app.
  change (pick received_msg
            (Log INFO "get task, incoming_message=%s" [OMsg m] :: evs))
    with (pick received_msg evs).
  change (pick task_msg
            (Log INFO "get task, incoming_message=%s" [OMsg m] :: evs))
    with (m :: pick task_msg evs).
  rewrite Hr, Ht, app_nil_r. split; reflexivity.
Qed.

Lemma received_receipt (h : list Event) (m : ChatbotMessage) :
  received (h ++ [Log INFO "received incoming message, message=%s" [OMsg m]])
    = received h ++ [m] /\
  taken (h ++ [Log INFO "received incoming message, message=%s" [OMsg m]])
    = taken h.
Proof.
  unfold received, taken. rewrite !pick_app. split.
  - reflexivity.
  - change (pick task_msg
              [Log INFO "received incoming message, message=%s" [OMsg m]])
      with (@nil ChatbotMessage).
    apply app_nil_r.
Qed.

Section Conservation.

Context {W Data : Type} (ext : Externals W Data).

Lemma replace_length {A} (i : nat) (a : A) (l : list A) :
  List.length (replace i a l) = List.length l.
Proof.
  revert i. induction l as [|x l IH]; intros [|i]; simpl; auto.
Qed.

(** No step removes a worker. *)
Lemma step_others a y :
  (List.length (others y) <= List.length (others (sys_step ext a y)))%nat.
Proof.
  destruct a as [data| | | |i]; cbn [sys_step].
  - unfold on_callback. destruct (ingest y); [|lia].
    destruct (process ext data (view (parent y) y)). cbn [others]. lia.
  - unfold on_put_resumes. destruct (ingest y); [lia|].
    destruct (process_resume _ _) as [[a|e|] s]; cbn [others]; lia.
  - unfold on_pre_start.
    destruct (worker y);
      (destruct (truthy (subprocess (_options (parent y)))); [|lia]);
      match goal with
      | |- context [let (_, _) := ?c ?s1 in _] => destruct (c s1)
      end; cbn [others]; rewrite ?length_app; lia.
  - unfold on_worker_turn. destruct (worker y); try lia.
    destruct (worker_iteration ext _). cbn [others]. lia.
  - unfold on_other_turn.
    destruct (nth_error (others y) i) as [[|b|e]|]; try lia.
    destruct (worker_iteration ext _). cbn [others].
    rewrite replace_length. lia.
Qed.

Lemma run_others schedule y :
  (List.length (others y) <= List.length (others (run ext schedule y)))%nat.
Proof.
  revert y. induction schedule as [|a l IH]; intros y; simpl; [lia|].
  specialize (IH (sys_step ext a y)). pose proof (step_others a y). lia.
Qed.

Lemma step_conserved options a y :
  Placed ext options y ->
  others (sys_step ext a y) = [] ->
  conserved y -> conserved (sys_step ext a y).
Proof.
  intros [Hd Ho Hpp Hw Hin Hoth] Hone Hc0.
  assert (Hnone : others y = []).
  { pose proof (step_others a y) as Hle. rewrite Hone in Hle.
    destruct (others y); [reflexivity | simpl in Hle; lia]. }
  pose proof Hc0 as Hc. unfold conserved in Hc.
  destruct a as [data| | | |i]; cbn [sys_step] in *.
  - (* a callback *)
    unfold on_callback. destruct (ingest y) eqn:Hing; [|exact Hc0].
    cbn [pending] in Hc. rewrite app_nil_r in Hc.
    destruct (truthy (subprocess options)) eqn:Hmode.
    + destruct (from_dict ext data) as [m|e] eqn:Hfd.
      * rewrite (process_offload_unfold ext data m (view (parent y) y));
          [|cbn [view self]; rewrite Ho; exact Hmode|exact Hfd].
        cbn [view self task_queue world trace].
        destruct (received_receipt (history y) m) as [Hr Ht].
        destruct (full (queue y)); unfold conserved;
          cbn [history queue ingest items pending trace task_queue];
          rewrite Hr, Ht, Hc, <- ?app_assoc, ?app_nil_r; reflexivity.
      * unfold process, bind. rewrite Hfd. unfold conserved.
        cbn [res_of history queue ingest pending view trace task_queue].
        rewrite app_nil_r. exact Hc.
    + destruct (Hin eq_refl) as [_ [Hit _]].
      rewrite (process_inline_unfold ext data (view (parent y) y));
        [|cbn [view self]; rewrite Ho; exact Hmode].
      destruct (from_dict ext data) as [m|e] eqn:Hfd.
      * unfold logger at 1, emit at 1.
        cbn [snd view self task_queue world trace].
        match goal with
        | |- context [process_incoming_message ext m ?s1] =>
            destruct (process_incoming_message_task ext m s1)
              as [evs [He Hp]];
            pose proof (respects_process_incoming_message ext same_queue
                          same_queue_emit (@same_queue_extern W) m s1) as Hq;
            pose proof (total_process_incoming_message ext m s1) as Ht;
            destruct (process_incoming_message ext m s1) as [[[]|e|] s2]
        end; unfold same_queue in Hq; cbn [fst snd trace task_queue] in *;
          try congruence; unfold conserved;
          cbn [history queue ingest pending]; rewrite He, Hq, Hit;
          rewrite <- app_assoc;
          destruct (received_task
                      (history y ++
                       [Log INFO "received incoming message, message=%s"
                            [OMsg m]]) evs m Hp) as [Hr1 Ht1];
          rewrite <- app_assoc in Hr1, Ht1; cbn [app] in Hr1, Ht1 |- *;
          rewrite Hr1, Ht1;
          destruct (received_receipt (history y) m) as [Hr2 Ht2];
          rewrite Hr2, Ht2, Hc, Hit, !app_nil_r; reflexivity.
      * unfold conserved.
        cbn [history queue ingest pending view trace task_queue].
        rewrite app_nil_r. exact Hc.
  - (* the pending put goes on *)
    unfold on_put_resumes. destruct (ingest y) as [|m] eqn:Hing;
      [exact Hc0|].
    unfold process_resume, bind, put, ret.
    cbn [view self task_queue world trace].
    destruct (full (queue y)); [exact Hc0|].
    unfold conserved.
    cbn [history queue ingest pending items trace task_queue].
    cbn [pending] in Hc.
    rewrite Hc, app_nil_r. reflexivity.
  - (* a worker is forked *)
    unfold on_pre_start in *.
    destruct (truthy (subprocess (_options (parent y))));
      [|destruct (worker y); exact Hc0].
    destruct (worker y) eqn:Hwk.
    + unfold bind at 1. unfold logger at 1, emit at 1. cbv beta iota.
      rewrite do_sd_process_setup_unfold. cbv zeta.
      cbn [view self task_queue world trace].
      destruct (load_pipe ext _ (outside y)) as [[[]|e1] w'];
        unfold conserved; cbn [history queue ingest trace task_queue];
        rewrite <- app_assoc, received_plain, taken_plain by reflexivity;
        exact Hc.
    + exfalso.
      match type of Hone with
      | context [let (_, _) := ?c ?s1 in _] => destruct (c s1)
      end.
      cbn [others] in Hone. apply app_eq_nil in Hone.
      destruct Hone; discriminate.
    + exfalso.
      match type of Hone with
      | context [let (_, _) := ?c ?s1 in _] => destruct (c s1)
      end.
      cbn [others] in Hone. apply app_eq_nil in Hone.
      destruct Hone; discriminate.
  - (* a turn of the first worker *)
    unfold on_worker_turn.
    destruct (worker y) as [|b|e] eqn:Hwk; try exact Hc0.
    unfold worker_iteration, bind at 1, get.
    cbn [view self task_queue world trace].
    destruct (items (queue y)) as [|m rest] eqn:Hit.
    + unfold conserved.
      cbn [view history queue ingest items trace task_queue].
      rewrite Hit. exact Hc.
    + match goal with
      | |- context [process_incoming_message ext m ?s1] =>
          destruct (process_incoming_message_task ext m s1)
            as [evs [He Hp]];
          pose proof (respects_process_incoming_message ext same_queue
                        same_queue_emit (@same_queue_extern W) m s1) as Hq;
          destruct (process_incoming_message ext m s1) as [r s2]
      end.
      unfold same_queue in Hq. cbn [fst snd trace task_queue] in *.
      unfold conserved.
      cbn [history queue ingest]. rewrite He, Hq. cbn [items].
      destruct (received_task (history y) evs m Hp) as [Hr1 Ht1].
      rewrite Hr1, Ht1, Hc, <- app_assoc. reflexivity.
  - (* a turn of a later worker: there is none *)
    unfold on_other_turn. rewrite Hnone. destruct i; exact Hc0.
Qed.

Lemma run_conserved options schedule y :
  Placed ext options y ->
  others (run ext schedule y) = [] ->
  conserved y -> conserved (run ext schedule y).
Proof.
  revert y. induction schedule as [|a l IH]; intros y HP Hone Hc; simpl.
  - exact Hc.
  - simpl in Hone.
    assert (Hstep : others (sys_step ext a y) = []).
    { pose proof (run_others l (sys_step ext a y)) as Hle.
      rewrite Hone in Hle.
      destruct (others (sys_step ext a y)); [reflexivity|simpl in Hle; lia]. }
    apply IH; [apply step_placed | exact Hone
              | apply (step_conserved options)];
      assumption.
Qed.

End Conservation.

(** X13. With one worker, no request is lost, duplicated or overtaken
    between receipt and task.  As long as [pre_start] has forked no second
    worker, whenever no callback and no task is under way (each process is
    between two calls, or waits in [put] or [get]), in either mode, the
    messages logged on receipt are, in order: those logged as tasks, then
    those in the queue, then the one a blocked [put] holds. *)
Theorem requests_conserved_in_order
        {W Data} (ext : Externals W Data) options w y0 schedule :
  boot ext options w = Ret y0 ->
  others (run ext schedule y0) = [] ->
  received (history (run ext schedule y0))
  = taken (history (run ext schedule y0))
    ++ items (queue (run ext schedule y0))
    ++ pending (ingest (run ext schedule y0)).
Proof.
  intros Hboot Hone.
  apply (run_conserved ext options schedule y0).
  - apply (boot_placed ext options w y0 Hboot).
  - exact Hone.
  - unfold boot, __init__, create_pipe_for, bind, extern, ret in Hboot.
    destruct (negb (truthy (subprocess options))).
    + cbn [world self task_queue trace] in Hboot.
      destruct (load_pipe ext _ w) as [[[]|e] w']; [|discriminate].
      injection Hboot as <-. reflexivity.
    + injection Hboot as <-. reflexivity.
Qed.

Lemma requests_conserved_in_order_witness :
  let ext := Demo.env 4 Demo.uploaded in
  let y := run ext [PreStart; Callback (Demo.Text "a"); Callback Demo.NoText;
                    WorkerTurn; Callback (Demo.Text "b");
                    Callback (Demo.Text "c"); WorkerTurn] Demo.booted in
  received (history y)
  = taken (history y) ++ items (queue y) ++ pending (ingest y).
Proof.
  intros ext y.
  apply (requests_conserved_in_order ext (Demo.options (Some true)) 0%nat
           Demo.booted);
    reflexivity.
Defined.

(* ================================================================== *)
(** ** The loop of the worker *)

Section Draining.

Context {W Data : Type} (ext : Externals W Data).

Hypothesis delivery : delivery_returns ext.

(** A turn on a queue that is not empty: the head is taken and logged as
    a task, the turn returns. *)
Lemma worker_iteration_head s m rest :
  items (task_queue s) = m :: rest ->
  fst (worker_iteration ext s) = Ret tt /\
  items (task_queue (snd (worker_iteration ext s))) = rest /\
  taken (trace (snd (worker_iteration ext s))) = taken (trace s) ++ [m].
Proof.
  intros Hit.
  assert (Hq : task_queue s
               = {| maxsize := maxsize (task_queue s); items := m :: rest |})
    by (destruct (task_queue s); simpl in *; congruence).
  destruct (worker_iteration_takes_head ext delivery m rest _ s Hq)
    as [Hr Hi].
  split; [exact Hr|]. split; [exact Hi|].
  unfold worker_iteration, bind, get. rewrite Hit.
  match goal with
  | |- context [process_incoming_message ext m ?s1] =>
      destruct (process_incoming_message_task ext m s1) as [evs [He Hp]];
      destruct (process_incoming_message ext m s1) as [[[]|e|] s2]
  end; cbn [snd trace] in *; rewrite He;
    apply (received_task (trace s) evs m Hp).
Qed.

Lemma while_true_drains l :
  forall n s,
    items (task_queue s) = l ->
    (List.length l < n)%nat ->
    fst (while_true n (worker_iteration ext) s) = Block /\
    items (task_queue (snd (while_true n (worker_iteration ext) s))) = [] /\
    taken (trace (snd (while_true n (worker_iteration ext) s)))
      = taken (trace s) ++ l.
Proof.
  induction l as [|m rest IH]; intros n s Hit Hn;
    (destruct n as [|n]; [simpl in Hn; lia|]).
  - cbn [while_true]. unfold worker_iteration, bind, get. cbv beta.
    rewrite Hit. cbn [fst snd]. rewrite Hit, app_nil_r. auto.
  - destruct (worker_iteration_head s m rest Hit) as [Hr [Hi Ht]].
    cbn [while_true]. unfold bind at 1 2 3.
    destruct (worker_iteration ext s) as [r s1]. cbn [fst snd] in *.
    subst r.
    destruct (IH n s1 Hi ltac:(simpl in Hn; lia)) as [H1 [H2 H3]].
    split; [exact H1|]. split; [exact H2|].
    rewrite H3, Ht, <- app_assoc. reflexivity.
Qed.

End Draining.

(** X14. The worker drains the queue, then waits.  When its pipeline
    loads and the delivery calls return, [do_sd_process] given more turns
    than there are requests queued takes every request as a task, in the
    order of the queue, and ends waiting in [get] on the empty queue; it
    neither returns nor raises. *)
Theorem worker_drains_then_waits
        {W Data} (ext : Externals W Data) s fuel :
  delivery_returns ext ->
  fst (do_sd_process_setup ext s) = Ret tt ->
  (List.length (items (task_queue s)) < fuel)%nat ->
  fst (do_sd_process ext fuel s) = Block /\
  items (task_queue (snd (do_sd_process ext fuel s))) = [] /\
  taken (trace (snd (do_sd_process ext fuel s)))
    = taken (trace s) ++ items (task_queue s).
Proof.
  intros Hd Hsetup Hfuel.
  unfold do_sd_process, bind.
  rewrite do_sd_process_setup_unfold in *. cbv zeta in *.
  destruct (load_pipe ext _ (world s)) as [[[]|e] w']; [|discriminate].
  match goal with
  | |- context [while_true fuel (worker_iteration ext) ?s1] =>
      destruct (while_true_drains ext Hd (items (task_queue s)) fuel s1
                  eq_refl Hfuel) as [H1 [H2 H3]]
  end.
  split; [exact H1|]. split; [exact H2|].
  rewrite H3. cbn [trace]. rewrite taken_plain by reflexivity. reflexivity.
Qed.

Lemma worker_drains_then_waits_witness :
  let ext := Demo.env 4 Demo.uploaded in
  let s := Demo.queued Demo.offload_bot
             [Demo.message "boom"; Demo.message "a red cat"] in
  fst (do_sd_process ext 3 s) = Block /\
  items (task_queue (snd (do_sd_process ext 3 s))) = [] /\
  taken (trace (snd (do_sd_process ext 3 s)))
    = taken (trace s) ++ items (task_queue s).
Proof.
  intros ext s.
  apply (worker_drains_then_waits ext s 3).
  - split; intros; eexists; reflexivity.
  - reflexivity.
  - vm_compute. apply le_n.
Defined.

(* ================================================================== *)
(** ** A worker that has ended *)

#[local] Instance extends_preorder {W} : PreOrder (@extends W).
Proof.
  split.
  - intros s. exists []. rewrite app_nil_r. reflexivity.
  - intros a b c [m1 H1] [m2 H2]. exists (m1 ++ m2).
    rewrite H2, H1, app_assoc. reflexivity.
Qed.

Lemma extends_emit {W} (e : Event) : respects extends (@emit W e).
Proof. intros s. exists []. simpl. rewrite app_nil_r. reflexivity. Qed.

Lemma extends_extern {W A} (f : W -> Outcome A * W) :
  respects extends (extern f).
Proof.
  intros s. unfold extern. destruct (f (world s)). simpl.
  exists []. rewrite app_nil_r. reflexivity.
Qed.

Lemma extends_put {W} (m : ChatbotMessage) : respects extends (@put W m).
Proof.
  intros s. unfold put. destruct (full _); simpl.
  - exists []. rewrite app_nil_r. reflexivity.
  - exists [m]. reflexivity.
Qed.

(** X15. A worker that has ended stays ended, whatever is scheduled
    afterwards.  Unless [pre_start] forks another worker, what is in the
    queue then stays there: the queue only grows at its tail. *)
Theorem ended_worker_stays_ended
        {W Data} (ext : Externals W Data) y e schedule :
  worker y = Exited e ->
  worker (run ext schedule y) = Exited e /\
  (others (run ext schedule y) = [] ->
   exists more,
     items (queue (run ext schedule y)) = items (queue y) ++ more).
Proof.
  revert y. induction schedule as [|a l IH]; intros y Hw.
  - split; [first [exact Hw | reflexivity]|]. intros _. exists []. rewrite app_nil_r. reflexivity.
  - assert (Hstep : worker (sys_step ext a y) = Exited e /\
                    (others (sys_step ext a y) = [] ->
                     exists more,
                       items (queue (sys_step ext a y))
                         = items (queue y) ++ more)).
    { destruct a as [data| | | |i]; cbn [sys_step].
      - unfold on_callback. destruct (ingest y).
        + pose proof (respects_process ext extends extends_emit
                        (@extends_extern W) extends_put data
                        (view (parent y) y)) as [more Hm].
          destruct (process ext data (view (parent y) y)) as [r s].
          cbn [worker queue snd view task_queue] in *.
          split; [first [exact Hw | reflexivity]|]. intros _. exists more. exact Hm.
        + split; [first [exact Hw | reflexivity]|]. intros _. exists [].
          rewrite app_nil_r. reflexivity.
      - unfold on_put_resumes. destruct (ingest y) as [|m].
        + split; [first [exact Hw | reflexivity]|]. intros _. exists [].
          rewrite app_nil_r. reflexivity.
        + pose proof (respects_process_resume extends extends_put m
                        (view (parent y) y)) as [more Hm].
          destruct (process_resume m (view (parent y) y)) as [[a|e'|] s];
            cbn [worker queue snd view task_queue] in *.
          * split; [first [exact Hw | reflexivity]|]. intros _. exists more. exact Hm.
          * split; [first [exact Hw | reflexivity]|]. intros _. exists [].
            rewrite app_nil_r. reflexivity.
          * split; [first [exact Hw | reflexivity]|]. intros _. exists [].
            rewrite app_nil_r. reflexivity.
      - unfold on_pre_start. rewrite Hw.
        destruct (truthy (subprocess (_options (parent y)))).
        + match goal with
          | |- context [let (_, _) := ?c ?s1 in _] => destruct (c s1)
          end.
          cbn [worker others]. split; [first [exact Hw | reflexivity]|].
          intros Habs. apply app_eq_nil in Habs.
          destruct Habs; discriminate.
        + split; [first [exact Hw | reflexivity]|]. intros _. exists [].
          rewrite app_nil_r. reflexivity.
      - unfold on_worker_turn. rewrite Hw.
        split; [first [exact Hw | reflexivity]|]. intros _. exists [].
        rewrite app_nil_r. reflexivity.
      - unfold on_other_turn.
        destruct (nth_error (others y) i) as [[|b|e']|] eqn:Hnth;
          try (split; [first [exact Hw | reflexivity]|]; intros _; exists [];
               rewrite app_nil_r; reflexivity).
        destruct (worker_iteration ext (view b y)) as [r s].
        cbn [worker others]. split; [first [exact Hw | reflexivity]|].
        intros Habs.
        assert (Hlen : List.length (others y) = 0%nat)
          by (rewrite <- (replace_length i
                            match r with
                            | Raise e0 => Exited e0
                            | _ => Running (self s)
                            end (others y)), Habs; reflexivity).
        destruct (others y); [destruct i; discriminate|discriminate]. }
    destruct Hstep as [Hw1 Hq1].
    destruct (IH (sys_step ext a y) Hw1) as [Hw2 Hq2].
    change (run ext (a :: l) y) with (run ext l (sys_step ext a y)).
    split; [exact Hw2|]. intros Hone.
    assert (Hone1 : others (sys_step ext a y) = []).
    { pose proof (run_others ext l (sys_step ext a y)) as Hle.
      rewrite Hone in Hle.
      destruct (others (sys_step ext a y)); [reflexivity|simpl in Hle; lia]. }
    destruct (Hq1 Hone1) as [m1 Hm1]. destruct (Hq2 Hone) as [m2 Hm2].
    exists (m1 ++ m2). rewrite Hm2, Hm1, app_assoc. reflexivity.
Qed.

Lemma ended_worker_stays_ended_witness :
  let ext := Demo.env 4 Demo.upload_fails in
  let y := run ext [PreStart; Callback (Demo.Text "a"); WorkerTurn]
               Demo.booted in
  let schedule := [Callback (Demo.Text "b"); WorkerTurn;
                   Callback (Demo.Text "c"); WorkerTurn; OtherTurn 0] in
  worker (run ext schedule y) = Exited (Error "upload failed") /\
  (others (run ext schedule y) = [] ->
   exists more, items (queue (run ext schedule y)) = items (queue y) ++ more).
Proof.
  intros ext y schedule.
  apply (ended_worker_stays_ended ext y (Error "upload failed") schedule).
  reflexivity.
Defined.

(* ================================================================== *)
(** ** Start-up *)

(** X16. In offload mode the constructor loads nothing and cannot fail:
    it leaves the outside world as it found it.  The pipeline is loaded by
    the worker that [pre_start] forks; when loading raises, the worker has
    ended with that exception while the bot itself is up. *)
Theorem offload_loads_in_worker
        {W Data} (ext : Externals W Data) options w :
  truthy (subprocess options) = true ->
  exists y0,
    boot ext options w = Ret y0 /\
    outside y0 = w /\ history y0 = [] /\ _pipe (parent y0) = None /\
    worker y0 = NotStarted /\
    worker (sys_step ext PreStart y0) =
      match load_pipe ext (pipe_for ext options) w with
      | (Returns _, _) =>
          Running {| _is_darwin := platform_is_darwin ext;
                     _is_google_colab := in_google_colab ext;
                     _options := options;
                     _pipe := Some (pipe_for ext options);
                     _enable_four_images := true |}
      | (Raises e, _) => Exited e
      end.
Proof.
  intros Hmode. unfold boot, __init__. rewrite Hmode. cbn [negb].
  eexists. split; [reflexivity|].
  cbn [outside history parent worker world trace self _pipe].
  repeat (split; [reflexivity|]).
  cbn [sys_step]. unfold on_pre_start.
  cbn [worker parent _options self]. rewrite Hmode.
  unfold bind at 1. unfold logger at 1, emit at 1. cbv beta iota.
  rewrite do_sd_process_setup_unfold. cbv zeta.
  cbn [view self task_queue world trace parent outside _is_darwin _options
            _is_google_colab _enable_four_images].
  unfold pipe_for.
  destruct (load_pipe ext _ w) as [[[]|e] w']; reflexivity.
Qed.

Lemma offload_loads_in_worker_witness :
  let ext := Demo.env 4 Demo.uploaded in
  exists y0,
    boot ext (Demo.options (Some true)) 5%nat = Ret y0 /\
    outside y0 = 5%nat /\ history y0 = [] /\ _pipe (parent y0) = None /\
    worker y0 = NotStarted /\
    worker (sys_step ext PreStart y0) =
      match load_pipe ext (pipe_for ext (Demo.options (Some true))) 5%nat with
      | (Returns _, _) =>
          Running {| _is_darwin := platform_is_darwin ext;
                     _is_google_colab := in_google_colab ext;
                     _options := Demo.options (Some true);
                     _pipe := Some (pipe_for ext (Demo.options (Some true)));
                     _enable_four_images := true |}
      | (Raises e, _) => Exited e
      end.
Proof.
  intros ext.
  apply (offload_loads_in_worker ext (Demo.options (Some true)) 5%nat).
  reflexivity.
Defined.

(** X17. In inline mode the constructor loads the pipeline: the bot
    exists only if loading returns, and an exception of the loading is the
    constructor's. *)
Theorem inline_loads_in_constructor
        {W Data} (ext : Externals W Data) options w :
  truthy (subprocess options) = false ->
  boot ext options w =
    match load_pipe ext (pipe_for ext options) w with
    | (Returns _, w') =>
        Ret {| parent := {| _is_darwin := platform_is_darwin ext;
                            _is_google_colab := in_google_colab ext;
                            _options := options;
                            _pipe := Some (pipe_for ext options);
                            _enable_four_images := true |};
               ingest := Idle; worker := NotStarted;
               queue := {| maxsize := 128; items := [] |};
               outside := w'; history := []; acked := []; others := [] |}
    | (Raises e, _) => Raise e
    end.
Proof.
  intros Hmode. unfold boot, __init__. rewrite Hmode. cbn [negb].
  unfold create_pipe_for, pipe_for, bind, extern, ret.
  cbn [world self task_queue trace].
  destruct (load_pipe ext _ w) as [[[]|e] w']; reflexivity.
Qed.

Lemma inline_loads_in_constructor_witness :
  let ext := Demo.env 4 Demo.uploaded in
  boot ext (Demo.options None) 0%nat =
    match load_pipe ext (pipe_for ext (Demo.options None)) 0%nat with
    | (Returns _, w') =>
        Ret {| parent := {| _is_darwin := platform_is_darwin ext;
                            _is_google_colab := in_google_colab ext;
                            _options := Demo.options None;
                            _pipe := Some (pipe_for ext (Demo.options None));
                            _enable_four_images := true |};
               ingest := Idle; worker := NotStarted;
               queue := {| maxsize := 128; items := [] |};
               outside := w'; history := []; acked := []; others := [] |}
    | (Raises e, _) => Raise e
    end.
Proof.
  intros ext.
  apply (inline_loads_in_constructor ext (Demo.options None) 0%nat).
  reflexivity.
Defined.



(** X19. On Colab, and on any platform that is not macOS, a command line
    without [--subprocess] makes an inline bot: no worker is ever started
    and nothing is ever queued; the bot holds the pipeline, on the device
    asked for, else on [cuda] on Colab, else on no device; Colab has the
    last word over macOS. *)
Theorem other_defaults_inline
        {W Data} (ext : Externals W Data) parsed w y0 schedule :
  in_google_colab ext = true \/ platform_is_darwin ext = false ->
  subprocess parsed = None ->
  boot ext (define_options ext parsed) w = Ret y0 ->
  worker (run ext schedule y0) = NotStarted /\
  items (queue (run ext schedule y0)) = [] /\
  _pipe (parent (run ext schedule y0)) =
    Some {| model := "runwayml/stable-diffusion-v1-5";
            torch_dtype := if platform_is_darwin ext then None
                           else Some float16;
            pipe_device :=
              match device parsed with
              | Some d => Some d
              | None => if in_google_colab ext then Some (Py.lit "cuda")
                        else None
              end;
            attention_slicing := platform_is_darwin ext |}.
Proof.
  intros Hplat Hsub Hboot.
  destruct (run_placed ext _ schedule y0
              (boot_placed ext _ w y0 Hboot)) as [_ _ Hp _ Hin _].
  assert (Hmode : truthy (subprocess (define_options ext parsed)) = false).
  { unfold define_options. cbn [subprocess]. rewrite Hsub.
    destruct Hplat as [-> | ->]; [|destruct (in_google_colab ext)];
      destruct (platform_is_darwin ext); reflexivity. }
  destruct (Hin Hmode) as [Hw [Hq _]].
  split; [exact Hw|]. split; [exact Hq|].
  rewrite Hp, Hmode. unfold pipe_for, define_options. cbn [device].
  destruct (device parsed) as [d|]; [reflexivity|].
  destruct Hplat as [-> | ->]; [reflexivity|].
  destruct (in_google_colab ext); reflexivity.
Qed.

Lemma other_defaults_inline_witness :
  let y := run colab_env [PreStart; Callback (Demo.Text "a red cat");
                          WorkerTurn]
               {| parent := {| _is_darwin := false; _is_google_colab := true;
                               _options := define_options colab_env
                                             bare_command_line;
                               _pipe := Some {| model :=
                                                  "runwayml/stable-diffusion-v1-5";
                                                torch_dtype := Some float16;
                                                pipe_device :=
                                                  Some (Py.lit "cuda");
                                                attention_slicing := false |};
                               _enable_four_images := true |};
                  ingest := Idle; worker := NotStarted;
                  queue := {| maxsize := 128; items := [] |};
                  outside := 0%nat; history := []; acked := [];
                  others := [] |} in
  worker y = NotStarted /\
  items (queue y) = [] /\
  _pipe (parent y) =
    Some {| model := "runwayml/stable-diffusion-v1-5";
            torch_dtype := Some float16;
            pipe_device := Some (Py.lit "cuda");
            attention_slicing := false |}.
Proof.
  intros y.
  apply (other_defaults_inline colab_env bare_command_line 0%nat);
    [left; reflexivity | reflexivity | reflexivity].
Defined.
